(** * Forecaster wrappers of [pyzoo/zoo/zouwu/model/forecast.py]

    The module defines an abstract base class [Forecaster] and two leaf
    classes, [LSTMForecaster] and [MTNetForecaster].  Each leaf stores its
    hyperparameters on the instance, builds an internal model object of a
    library class, and hands the model that the library returns to the
    initializer of the base class [TFParkKerasModel].

    The embedding is a state-and-exception monad over a store of Python
    objects.  The three library classes the module imports are not part of
    the file: they are a parameter of the development (a [library]), and
    every interaction with them is recorded in a trace. *)

From Stdlib Require Import ZArith String List Bool PrimFloat Lia.
From stdpp Require Import base list strings.

Local Open Scope string_scope.
Local Open Scope list_scope.

(** ** Python values and objects *)

(** Locations are indices into a store. *)
Abbreviation loc := nat.

(** Immediate values and references.  [VObj] points into the heap of
    objects that are visible to the library code (dictionaries, lists,
    instances of library classes); [VInst] points to an instance of one of
    the classes of this module. *)
Inductive pyval : Type :=
| VNone
| VBool (b : bool)
| VInt (n : Z)
| VFloat (x : float)
| VStr (s : string)
| VObj (l : loc)
| VInst (l : loc).

(** A Python [dict] with string keys, in insertion order.  The same
    structure is the [__dict__] of an instance and the keyword arguments
    of a call. *)
Definition dict := list (string * pyval).

Fixpoint dict_get (k : string) (d : dict) : option pyval :=
  match d with
  | [] => None
  | (k', v) :: d' => if String.eqb k k' then Some v else dict_get k d'
  end.

Fixpoint dict_set (k : string) (v : pyval) (d : dict) : dict :=
  match d with
  | [] => [(k, v)]
  | (k', v') :: d' =>
      if String.eqb k k' then (k', v) :: d' else (k', v') :: dict_set k v d'
  end.

Fixpoint dict_del (k : string) (d : dict) : dict :=
  match d with
  | [] => []
  | (k', v') :: d' =>
      if String.eqb k k' then d' else (k', v') :: dict_del k d'
  end.

Definition dict_keys (d : dict) : list string := map fst d.

Definition dict_has (k : string) (d : dict) : bool :=
  match dict_get k d with Some _ => true | None => false end.

(** [d.update(items)]: the items are stored from left to right. *)
Definition dict_update (d : dict) (items : list (string * pyval)) : dict :=
  fold_left (fun d kv => dict_set (fst kv) (snd kv) d) items d.

(** A dict display [{k1: v1, ..., kn: vn}]. *)
Definition dict_display (items : list (string * pyval)) : dict :=
  dict_update [] items.

Inductive pyobj : Type :=
| ODict (d : dict)
| OList (xs : list pyval)
| OInst (cls : string) (attrs : dict).

(** ** Exceptions *)

Inductive exn : Type :=
| TypeError (msg : string)
| AttributeError (name : string)
| SystemError (msg : string)
| LibraryError (e : pyval).

Inductive result (A : Type) : Type :=
| Ok (a : A)
| Raise (e : exn).
Arguments Ok {A} a.
Arguments Raise {A} e.

Definition is_ok {A} (r : result A) : bool :=
  match r with Ok _ => true | Raise _ => false end.

(** ** The classes of the module *)

Inductive klass : Type :=
| TFParkKerasModel
| Forecaster
| LSTMForecaster
| MTNetForecaster.

Record instance : Type := mk_instance {
  i_class : klass;
  i_dict : dict
}.

(** ** What the library code may do

    A call into the library answers with a list of writes to the heap and
    an outcome.  Writes keep the kind and the class of an existing object,
    as Python does; a write to a location of the wrong kind is dropped.
    The instantiation of a library class runs the initializer of that
    class, which may raise like any other call.  The module hands it
    keyword arguments and no object of the heap: it answers with the
    attributes of the new instance, or with an exception.

    The module never passes a forecaster instance to the library, except
    to the initializer of the base class, which runs on the instance
    itself.  The instances of the module's classes are therefore kept in a
    store of their own, which [lib_call] does not see. *)

Inductive write : Type :=
| WNew (o : pyobj)
| WSetAttr (l : loc) (name : string) (v : pyval)
| WDelAttr (l : loc) (name : string)
| WSetItem (l : loc) (k : string) (v : pyval)
| WDelItem (l : loc) (k : string)
| WSetList (l : loc) (xs : list pyval).

Definition apply_write (h : list pyobj) (w : write) : list pyobj :=
  match w with
  | WNew o => h ++ [o]
  | WSetAttr l n v =>
      match h !! l with
      | Some (OInst c a) => <[l := OInst c (dict_set n v a)]> h
      | _ => h
      end
  | WDelAttr l n =>
      match h !! l with
      | Some (OInst c a) => <[l := OInst c (dict_del n a)]> h
      | _ => h
      end
  | WSetItem l k v =>
      match h !! l with
      | Some (ODict d) => <[l := ODict (dict_set k v d)]> h
      | _ => h
      end
  | WDelItem l k =>
      match h !! l with
      | Some (ODict d) => <[l := ODict (dict_del k d)]> h
      | _ => h
      end
  | WSetList l xs =>
      match h !! l with
      | Some (OList _) => <[l := OList xs]> h
      | _ => h
      end
  end.

Definition apply_writes (ws : list write) (h : list pyobj) : list pyobj :=
  fold_left apply_write ws h.

Record reply : Type := mk_reply {
  r_writes : list write;
  r_out : result pyval
}.

(** The answer of the base-class initializer, which runs on the forecaster
    instance itself: the attributes of [self] when it is done (it may bind,
    rebind and delete attributes), its writes to the heap, and its
    outcome. *)
Record init_reply : Type := mk_init_reply {
  b_attrs : dict;
  b_writes : list write;
  b_out : result unit
}.

(** The imported classes.
    - [lib_new cls kw h]: the library class [cls] instantiated with keyword
      arguments [kw], with the heap [h] in view: the attributes of the fresh
      instance, or the exception that its initializer raises;
    - [lib_call cls meth recv pos kw h]: the method [meth] of class [cls]
      called on the instance at [recv], with the heap [h] in view;
    - [lib_base_init attrs model h]: [TFParkKerasModel.__init__(self, model)]
      on an instance whose attributes are [attrs];
    - [lib_base_methods]: the names of the methods of [TFParkKerasModel]. *)
Record library : Type := mk_library {
  lib_new : string -> dict -> list pyobj -> result dict;
  lib_call : string -> string -> loc -> list pyval -> dict -> list pyobj -> reply;
  lib_base_init : dict -> pyval -> list pyobj -> init_reply;
  lib_base_methods : list string
}.

(** ** Trace of the interaction with the library *)

Inductive event : Type :=
| ENew (cls : string) (kw : dict) (h : list pyobj)
| ECall (cls meth : string) (recv : loc) (pos : list pyval) (kw : dict)
        (h : list pyobj)
| ESuperInit (self : loc) (attrs : dict) (model : pyval) (h : list pyobj).

(** ** Program state and monad *)

Record state : Type := mk_state {
  insts : list instance;
  heap : list pyobj;
  trace : list event
}.

Definition M (A : Type) : Type := state -> state * result A.

Definition ret {A} (a : A) : M A := fun s => (s, Ok a).

Definition raise {A} (e : exn) : M A := fun s => (s, Raise e).

Definition bind {A B} (m : M A) (f : A -> M B) : M B :=
  fun s =>
    match m s with
    | (s', Ok a) => f a s'
    | (s', Raise e) => (s', Raise e)
    end.

Declare Scope py_scope.
Delimit Scope py_scope with py.
Notation "'let*' x := m 'in' f" := (bind m (fun x => f))
  (at level 10, x name, m at level 100, f at level 200, only parsing)
  : py_scope.
Notation "'do*' m 'in' f" := (bind m (fun _ => f))
  (at level 10, m at level 100, f at level 200, only parsing) : py_scope.
Local Open Scope py_scope.

(** ** Arguments of the two initializers *)

Module LSTM.
Record args : Type := mk_args {
  horizon : pyval;
  feature_dim : pyval;
  lstm_1_units : pyval;
  dropout_1 : pyval;
  lstm_2_units : pyval;
  dropout_2 : pyval;
  metric : pyval;
  lr : pyval;
  uncertainty : pyval
}.

(** The defaults of the signature. *)
#[warnings="-inexact-float"] Definition defaults : args :=
  mk_args (VInt 1) (VInt 1) (VInt 16) (VFloat 0.2) (VInt 8) (VFloat 0.2)
    (VStr "mean_squared_error") (VFloat 0.001) (VBool false).
End LSTM.

Module MTNet.
Record args : Type := mk_args {
  horizon : pyval;
  feature_dim : pyval;
  metric : pyval;
  uncertainty : pyval
}.

Definition defaults : args :=
  mk_args (VInt 1) (VInt 1) (VStr "mean_squared_error") (VBool false).
End MTNet.

Inductive ctor_args : Type :=
| NoArgs
| LSTMArgs (a : LSTM.args)
| MTNetArgs (a : MTNet.args).

(** ** Primitive operations of the object model *)

Section Program.

Variable L : library.

(** Allocation of a dict, a list or a library instance on the heap. *)
Definition alloc (o : pyobj) : M loc :=
  fun s =>
    (mk_state (insts s) (heap s ++ [o]) (trace s), Ok (length (heap s))).

(** Allocation of an instance of a class of this module, with an empty
    [__dict__]. *)
Definition alloc_inst (k : klass) : M loc :=
  fun s =>
    (mk_state (insts s ++ [mk_instance k []]) (heap s) (trace s),
     Ok (length (insts s))).

Definition class_of (self : loc) : M klass :=
  fun s =>
    match insts s !! self with
    | Some i => (s, Ok (i_class i))
    | None => (s, Raise (SystemError "dangling reference"))
    end.

(** [self.name] *)
Definition getattr (self : loc) (name : string) : M pyval :=
  fun s =>
    match insts s !! self with
    | Some i =>
        match dict_get name (i_dict i) with
        | Some v => (s, Ok v)
        | None => (s, Raise (AttributeError name))
        end
    | None => (s, Raise (SystemError "dangling reference"))
    end.

(** [self.name = v] *)
Definition setattr (self : loc) (name : string) (v : pyval) : M unit :=
  fun s =>
    match insts s !! self with
    | Some i =>
        (mk_state
           (<[self := mk_instance (i_class i) (dict_set name v (i_dict i))]>
              (insts s))
           (heap s) (trace s), Ok tt)
    | None => (s, Raise (SystemError "dangling reference"))
    end.

(** [target.name = v] for a target held in a local variable. *)
Definition store_attr (target : pyval) (name : string) (v : pyval) : M unit :=
  match target with
  | VInst l => setattr l name v
  | VObj l =>
      fun s =>
        match heap s !! l with
        | Some (OInst c a) =>
            (mk_state (insts s)
               (<[l := OInst c (dict_set name v a)]> (heap s))
               (trace s), Ok tt)
        | Some _ => (s, Raise (AttributeError name))
        | None => (s, Raise (SystemError "dangling reference"))
        end
  | _ => raise (AttributeError name)
  end.

(** A dict display and a list display allocate a fresh object. *)
Definition new_dict (items : list (string * pyval)) : M pyval :=
  let* l := alloc (ODict (dict_display items)) in ret (VObj l).

Definition new_list (xs : list pyval) : M pyval :=
  let* l := alloc (OList xs) in ret (VObj l).

(** Instantiation of a library class with keyword arguments [kw].  The
    initializer of the class is library code: when it returns, the fresh
    instance is allocated with the attributes the library chose; when it
    raises, nothing is allocated and the exception propagates.  The
    instantiation is appended to the trace with the heap it saw; the
    instance, if any, is at the first free location of that heap. *)
Definition new_lib (cls : string) (kw : dict) : M pyval :=
  fun s =>
    match lib_new L cls kw (heap s) with
    | Ok attrs =>
        (mk_state (insts s) (heap s ++ [OInst cls attrs])
           (trace s ++ [ENew cls kw (heap s)]), Ok (VObj (length (heap s))))
    | Raise e =>
        (mk_state (insts s) (heap s) (trace s ++ [ENew cls kw (heap s)]),
         Raise e)
    end.

(** The bound methods the module uses: a method of a library instance and
    [dict.get]. *)
Inductive bound : Type :=
| BLib (cls meth : string) (recv : loc)
| BDictGet (recv : loc).

(** [v.meth], evaluated before the arguments of the call. *)
Definition get_method (v : pyval) (meth : string) : M bound :=
  match v with
  | VObj l =>
      fun s =>
        match heap s !! l with
        | Some (OInst c _) => (s, Ok (BLib c meth l))
        | Some (ODict _) =>
            if String.eqb meth "get" then (s, Ok (BDictGet l))
            else (s, Raise (AttributeError meth))
        | Some (OList _) => (s, Raise (AttributeError meth))
        | None => (s, Raise (SystemError "dangling reference"))
        end
  | _ => raise (AttributeError meth)
  end.

(** The call of a bound method.  A library method sees the heap, its
    writes are applied whether it returns or raises, and the call is
    appended to the trace with the heap it saw. *)
Definition invoke (m : bound) (pos : list pyval) (kw : dict) : M pyval :=
  match m with
  | BLib cls meth l =>
      fun s =>
        let r := lib_call L cls meth l pos kw (heap s) in
        (mk_state (insts s) (apply_writes (r_writes r) (heap s))
           (trace s ++ [ECall cls meth l pos kw (heap s)]), r_out r)
  | BDictGet l =>
      fun s =>
        match heap s !! l with
        | Some (ODict d) =>
            match pos, kw with
            | [k], [] =>
                (s, Ok (match k with
                        | VStr k' => default VNone (dict_get k' d)
                        | _ => VNone
                        end))
            | [k; dflt], [] =>
                (s, Ok (match k with
                        | VStr k' => default dflt (dict_get k' d)
                        | _ => dflt
                        end))
            | _, _ => (s, Raise (TypeError "get expected 1 or 2 arguments"))
            end
        | _ => (s, Raise (SystemError "dangling reference"))
        end
  end.

(** A mapping [v] unpacked into keyword arguments: the items of [v]. *)
Definition unpack_kwargs (v : pyval) : M dict :=
  match v with
  | VObj l =>
      fun s =>
        match heap s !! l with
        | Some (ODict d) => (s, Ok d)
        | _ => (s, Raise (TypeError "argument after ** must be a mapping"))
        end
  | _ => raise (TypeError "argument after ** must be a mapping")
  end.

(** Keyword arguments written out followed by an unpacked mapping; a key
    given twice is a [TypeError]. *)
Definition join_kwargs (kw star : dict) : M dict :=
  if existsb (fun k => dict_has k kw) (dict_keys star)
  then raise (TypeError "got multiple values for keyword argument")
  else ret (kw ++ star).

(** [TFParkKerasModel.__init__(self, model)]: the initializer of the
    library base class, running on the forecaster instance.  What it does
    to the attributes of [self] and to the heap stays, whether it returns
    or raises. *)
Definition TFParkKerasModel___init__ (self : loc) (model : pyval) : M unit :=
  fun s =>
    match insts s !! self with
    | Some i =>
        let b := lib_base_init L (i_dict i) model (heap s) in
        (mk_state
           (<[self := mk_instance (i_class i) (b_attrs b)]> (insts s))
           (apply_writes (b_writes b) (heap s))
           (trace s ++ [ESuperInit self (i_dict i) model (heap s)]),
         b_out b)
    | None => (s, Raise (SystemError "dangling reference"))
    end.

(** ** Class table and abstract methods *)

(** Modelled from the spec: the class statement of [TFParkKerasModel] is
    not part of the file.  The spec names [build model] as the one
    capability that the base contract requires, so the library class
    brings its methods and no abstract one. *)
Definition declared_TFParkKerasModel : list (string * bool) :=
  map (fun n => (n, false)) (lib_base_methods L).

(** The methods each class statement defines, with the flag that
    [@abstractmethod] sets. *)
Definition declared (k : klass) : list (string * bool) :=
  match k with
  | TFParkKerasModel => declared_TFParkKerasModel
  | Forecaster => [("__init__", false); ("_build", true)]
  | LSTMForecaster => [("__init__", false); ("_build", false)]
  | MTNetForecaster =>
      [("__init__", false); ("_build", false); ("preprocess_input", false)]
  end.

(** Method resolution order (single inheritance). *)
Definition mro (k : klass) : list klass :=
  match k with
  | TFParkKerasModel => [TFParkKerasModel]
  | Forecaster => [Forecaster; TFParkKerasModel]
  | LSTMForecaster => [LSTMForecaster; Forecaster; TFParkKerasModel]
  | MTNetForecaster => [MTNetForecaster; Forecaster; TFParkKerasModel]
  end.

Fixpoint method_flag (name : string) (ms : list (string * bool)) : option bool :=
  match ms with
  | [] => None
  | (n, b) :: ms' => if String.eqb name n then Some b else method_flag name ms'
  end.

(** The first class along the chain that defines [name]. *)
Fixpoint find_method (chain : list klass) (name : string)
  : option (klass * bool) :=
  match chain with
  | [] => None
  | k :: up =>
      match method_flag name (declared k) with
      | Some b => Some (k, b)
      | None => find_method up name
      end
  end.

Definition still_abstract (chain : list klass) (name : string) : bool :=
  match find_method chain name with
  | Some (_, b) => b
  | None => false
  end.

(** [ABCMeta.__new__]: the abstract names of a class are the names its
    body defines as abstract, and the abstract names of its base that
    still resolve to an abstract method. *)
Fixpoint abstractmethods_of (chain : list klass) : list string :=
  match chain with
  | [] => []
  | k :: up =>
      map fst (List.filter snd (declared k)) ++
      List.filter (still_abstract (k :: up)) (abstractmethods_of up)
  end.

Definition abstractmethods (k : klass) : list string :=
  abstractmethods_of (mro k).

(** ** The methods of the module *)

(** [Forecaster._build]: abstract, the body is [pass]. *)
Definition Forecaster__build (self : loc) : M pyval := ret VNone.

(** [LSTMForecaster._build] *)
Definition LSTMForecaster__build (self : loc) : M pyval :=
  let* coc := getattr self "check_optional_config" in
  let* h := getattr self "horizon" in
  let* internal :=
    new_lib "LSTMKerasModel"
      [("check_optional_config", coc); ("future_seq_len", h)] in
  let* fd := getattr self "feature_dim" in
  do* store_attr internal "feature_num" fd in
  let* build := get_method internal "_build" in
  let* mc := getattr self "uncertainty" in
  let* cfg := getattr self "model_config" in
  let* star := unpack_kwargs cfg in
  let* kw := join_kwargs [("mc", mc)] star in
  invoke build [] kw.

(** [MTNetForecaster._build] *)
Definition MTNetForecaster__build (self : loc) : M pyval :=
  let* coc := getattr self "check_optional_config" in
  let* cfg := getattr self "model_config" in
  let* get := get_method cfg "get" in
  let* fsl := invoke get [VStr "horizon"] [] in
  let* internal :=
    new_lib "MTNetKerasModel"
      [("check_optional_config", coc); ("future_seq_len", fsl)] in
  do* setattr self "internal" internal in
  let* i1 := getattr self "internal" in
  let* get_attributes := get_method i1 "_get_attributes" in
  let* mc1 := getattr self "mc" in
  let* cfg1 := getattr self "model_config" in
  let* get1 := get_method cfg1 "get" in
  let* metrics1 := invoke get1 [VStr "metrics"] [] in
  let* config := getattr self "model_config" in
  do* invoke get_attributes []
        [("mc", mc1); ("metrics", metrics1); ("epochs", VInt 1);
         ("config", config)] in
  let* i2 := getattr self "internal" in
  let* build_train := get_method i2 "_build_train" in
  let* mc2 := getattr self "mc" in
  let* cfg2 := getattr self "model_config" in
  let* get2 := get_method cfg2 "get" in
  let* metrics2 := invoke get2 [VStr "metrics"] [] in
  invoke build_train [] [("mc", mc2); ("metrics", metrics2)].

(** [self._build()]: the method is looked up on the class of [self]. *)
Definition call__build (self : loc) : M pyval :=
  let* k := class_of self in
  match find_method (mro k) "_build" with
  | Some (LSTMForecaster, _) => LSTMForecaster__build self
  | Some (MTNetForecaster, _) => MTNetForecaster__build self
  | Some (Forecaster, _) => Forecaster__build self
  | Some (TFParkKerasModel, _) => raise (SystemError "library method")
  | None => raise (AttributeError "_build")
  end.

(** [Forecaster.__init__] *)
Definition Forecaster___init__ (self : loc) : M unit :=
  let* m := call__build self in
  do* setattr self "model_" m in
  let* model := getattr self "model_" in
  TFParkKerasModel___init__ self model.

(** [LSTMForecaster.__init__] *)
Definition LSTMForecaster___init__ (self : loc) (a : LSTM.args) : M unit :=
  do* setattr self "horizon" (LSTM.horizon a) in
  do* setattr self "check_optional_config" (VBool false) in
  do* setattr self "uncertainty" (LSTM.uncertainty a) in
  do* setattr self "feature_dim" (LSTM.feature_dim a) in
  let* cfg :=
    new_dict
      [("lr", LSTM.lr a);
       ("lstm_1_units", LSTM.lstm_1_units a);
       ("dropout_1", LSTM.dropout_1 a);
       ("lstm_2_units", LSTM.lstm_2_units a);
       ("dropout_2", LSTM.dropout_2 a);
       ("metric", LSTM.metric a)] in
  do* setattr self "model_config" cfg in
  Forecaster___init__ self.

(** [MTNetForecaster.__init__] *)
Definition MTNetForecaster___init__ (self : loc) (a : MTNet.args) : M unit :=
  do* setattr self "check_optional_config" (VBool false) in
  do* setattr self "mc" (MTNet.uncertainty a) in
  let* ms := new_list [MTNet.metric a] in
  let* cfg :=
    new_dict
      [("feature_num", MTNet.feature_dim a);
       ("output_dim", MTNet.horizon a);
       ("metrics", ms)] in
  do* setattr self "model_config" cfg in
  do* setattr self "internal" VNone in
  Forecaster___init__ self.

(** [MTNetForecaster.preprocess_input] *)
Definition MTNetForecaster_preprocess_input (self : loc) (x : pyval)
  : M pyval :=
  let* i := getattr self "internal" in
  let* gen := get_method i "_gen_hist_inputs" in
  invoke gen [x] [].

(** ** Instantiation *)

(** [__init__] is looked up on the class of the new instance and receives
    the arguments of the call. *)
Definition call___init__ (self : loc) (args : ctor_args) : M unit :=
  let* k := class_of self in
  match find_method (mro k) "__init__", args with
  | Some (LSTMForecaster, _), LSTMArgs a => LSTMForecaster___init__ self a
  | Some (MTNetForecaster, _), MTNetArgs a => MTNetForecaster___init__ self a
  | Some (Forecaster, _), NoArgs => Forecaster___init__ self
  | _, _ => raise (TypeError "__init__() arguments do not match")
  end.

(** [k(...)]: a class with abstract methods cannot be instantiated;
    otherwise a fresh instance is initialized and returned. *)
Definition construct (k : klass) (args : ctor_args) : M loc :=
  match abstractmethods k with
  | [] =>
      let* self := alloc_inst k in
      do* call___init__ self args in
      ret self
  | _ :: _ => raise (TypeError "Can't instantiate abstract class")
  end.

(** ** Observations on traces *)

(** The events a computation appends to the trace of [s]. *)
Definition events_of {A} (m : M A) (s : state) : list event :=
  drop (length (trace s)) (trace (fst (m s))).

Definition is_new (cls : string) (e : event) : bool :=
  match e with
  | ENew c _ _ => String.eqb c cls
  | _ => false
  end.

Definition is_call (cls meth : string) (e : event) : bool :=
  match e with
  | ECall c m _ _ _ _ => String.eqb c cls && String.eqb m meth
  | _ => false
  end.

Definition is_super_init (e : event) : bool :=
  match e with
  | ESuperInit _ _ _ _ => true
  | _ => false
  end.

(** The keyword arguments of an instantiation or of a call. *)
Definition kwargs_of (e : event) : dict :=
  match e with
  | ENew _ kw _ => kw
  | ECall _ _ _ _ kw _ => kw
  | ESuperInit _ _ _ _ => []
  end.

(** The instantiations of a library class and the calls of one of its
    methods, in the order of the trace. *)
Definition news (cls : string) (evs : list event) : list event :=
  List.filter (is_new cls) evs.

Definition calls (cls meth : string) (evs : list event) : list event :=
  List.filter (is_call cls meth) evs.

Definition super_inits (evs : list event) : list event :=
  List.filter is_super_init evs.

(** What the library answered at a recorded interaction, and what it
    wrote: the event holds every input of [lib_new], of [lib_call] and of
    [lib_base_init].  An instantiation that returns yields the instance at
    the first free location of the heap it saw. *)
Definition returned (e : event) : result pyval :=
  match e with
  | ENew c kw h =>
      match lib_new L c kw h with
      | Ok _ => Ok (VObj (length h))
      | Raise x => Raise x
      end
  | ECall c m l pos kw h => r_out (lib_call L c m l pos kw h)
  | ESuperInit _ attrs model h =>
      match b_out (lib_base_init L attrs model h) with
      | Ok _ => Ok VNone
      | Raise x => Raise x
      end
  end.

Definition writes_of (e : event) : list write :=
  match e with
  | ENew _ _ _ => []
  | ECall c m l pos kw h => r_writes (lib_call L c m l pos kw h)
  | ESuperInit _ attrs model h => b_writes (lib_base_init L attrs model h)
  end.

Definition library_writes (evs : list event) : list write :=
  concat (map writes_of evs).

(** The dictionary stored at a location of a heap. *)
Definition dict_at (h : list pyobj) (l : loc) : dict :=
  match h !! l with
  | Some (ODict d) => d
  | _ => []
  end.


(** The exception with which a recorded interaction with the library
    ended, if it raised. *)
Definition raised (e : event) : option exn :=
  match returned e with
  | Ok _ => None
  | Raise x => Some x
  end.

Definition returns_normally (e : event) : bool := is_ok (returned e).

(** The attributes of [self] when the base initializer is entered, and
    when it is done. *)
Definition attrs_before (e : event) : dict :=
  match e with
  | ESuperInit _ attrs _ _ => attrs
  | _ => []
  end.

Definition attrs_after (e : event) : dict :=
  match e with
  | ESuperInit _ attrs model h => b_attrs (lib_base_init L attrs model h)
  | _ => []
  end.


(** The base initializer, where a trace records it, leaves the attribute
    [name] as it found it: it neither rebinds nor deletes it. *)
Definition base_init_leaves (name : string) (evs : list event) : Prop :=
  Forall
    (fun e => dict_get name (attrs_after e) = dict_get name (attrs_before e))
    (super_inits evs).

End Program.

(** ** A small library to run the module against

    The instances keep their keyword arguments as attributes;
    [_get_attributes] copies [mc] and the items of [config] it was given
    onto the instance; the two builders allocate a model object and return
    it; [_gen_hist_inputs] returns its argument; the base initializer binds
    [model] and keeps the other attributes. *)

Definition stub_call (cls meth : string) (recv : loc) (pos : list pyval)
    (kw : dict) (h : list pyobj) : reply :=
  if String.eqb meth "_get_attributes" then
    mk_reply
      (WSetAttr recv "mc" (default VNone (dict_get "mc" kw)) ::
       match dict_get "config" kw with
       | Some (VObj l) =>
           map (fun kv => WSetAttr recv (fst kv) (snd kv)) (dict_at h l)
       | _ => []
       end)
      (Ok VNone)
  else if String.eqb meth "_gen_hist_inputs" then
    mk_reply [] (Ok (hd VNone pos))
  else
    mk_reply [WNew (OInst "Model" [("built_by", VObj recv)])]
      (Ok (VObj (length h))).

Definition stub_library : library :=
  mk_library
    (fun cls kw h => Ok kw)
    stub_call
    (fun attrs model h =>
       mk_init_reply (dict_set "model" model attrs) [] (Ok tt))
    ["__init__"; "fit"; "evaluate"; "predict"].

(** Three variations of the stub: a library whose model classes cannot be
    instantiated, one whose base initializer starts from a clean
    [__dict__], and one whose base initializer uses the name [internal]
    for itself. *)
Definition refusing_library : library :=
  mk_library
    (fun cls kw h => Raise (LibraryError (VStr "no backend")))
    stub_call
    (lib_base_init stub_library)
    (lib_base_methods stub_library).


Definition rebinding_library : library :=
  mk_library
    (lib_new stub_library)
    stub_call
    (fun attrs model h =>
       mk_init_reply
         (dict_set "internal" VNone (dict_set "model" model attrs)) []
         (Ok tt))
    (lib_base_methods stub_library).

Definition empty_state : state := mk_state [] [] [].

(** Two objects of the same kind: both dictionaries, both lists, or
    instances of the same class. *)
Definition same_kind (o o' : pyobj) : Prop :=
  match o, o' with
  | ODict _, ODict _ => True
  | OList _, OList _ => True
  | OInst c _, OInst c' _ => c = c'
  | _, _ => False
  end.

(** ** Further observations *)

(** What an event is, without its arguments. *)
Inductive label : Type :=
| LNew (cls : string)
| LCall (cls meth : string)
| LSuperInit.

Definition label_of (e : event) : label :=
  match e with
  | ENew c _ _ => LNew c
  | ECall c m _ _ _ _ => LCall c m
  | ESuperInit _ _ _ _ => LSuperInit
  end.

(** The attribute [internal] of the instance at [self] refers to an
    [MTNetKerasModel] instance at [l]. *)
Definition internal_at (s : state) (self l : loc) : Prop :=
  exists i a,
    insts s !! self = Some i
    /\ dict_get "internal" (i_dict i) = Some (VObj l)
    /\ heap s !! l = Some (OInst "MTNetKerasModel" a).

(** The stub library after one construction of [MTNetForecaster] with the
    default arguments. *)
Definition stub_MTNet_state : state :=
  fst (construct stub_library MTNetForecaster (MTNetArgs MTNet.defaults)
         empty_state).

(** The stub library after two constructions of [MTNetForecaster]. *)
Definition stub_two_MTNet_state : state :=
  fst (construct stub_library MTNetForecaster (MTNetArgs MTNet.defaults)
         stub_MTNet_state).

(** * Properties *)

(** ** Dictionaries *)

Lemma dict_get_set_same k v d : dict_get k (dict_set k v d) = Some v.
Proof.
  induction d as [|[k' v'] d IH]; simpl.
  - now rewrite String.eqb_refl.
  - destruct (String.eqb k k') eqn:E; simpl; rewrite E; auto.
Qed.

Lemma dict_get_set_other k k' v d :
  k <> k' -> dict_get k (dict_set k' v d) = dict_get k d.
Proof.
  intros Hne. induction d as [|[k0 v0] d IH]; simpl.
  - apply String.eqb_neq in Hne. now rewrite Hne.
  - destruct (String.eqb k' k0) eqn:E; simpl.
    + apply String.eqb_eq in E; subst k0.
      apply String.eqb_neq in Hne. now rewrite Hne.
    + destruct (String.eqb k k0); auto.
Qed.

Lemma dict_has_set k k' v d :
  dict_has k d = true -> dict_has k (dict_set k' v d) = true.
Proof.
  unfold dict_has. destruct (string_dec k k') as [->|Hne].
  - now rewrite dict_get_set_same.
  - now rewrite dict_get_set_other.
Qed.

(** Binding attributes never removes one. *)
Lemma dict_has_update k d items :
  dict_has k d = true -> dict_has k (dict_update d items) = true.
Proof.
  unfold dict_update. revert d.
  induction items as [|[k' v'] items IH]; simpl; intros d Hd; auto.
  apply IH, dict_has_set, Hd.
Qed.

(** Binding other names leaves a binding as it is. *)
Lemma dict_get_update_other k d items :
  dict_get k items = None -> dict_get k (dict_update d items) = dict_get k d.
Proof.
  unfold dict_update. revert d.
  induction items as [|[k' v'] items IH]; simpl; intros d Hk; auto.
  destruct (String.eqb k k') eqn:E; [discriminate|].
  rewrite IH by assumption. apply dict_get_set_other.
  now apply String.eqb_neq.
Qed.

(** ** Lists used as stores *)

Lemma lookup_snoc {A} (l : list A) (x : A) : (l ++ [x]) !! length l = Some x.
Proof. now apply list_lookup_middle. Qed.

Lemma insert_snoc {A} (l : list A) (x y : A) :
  <[length l := y]> (l ++ [x]) = l ++ [y].
Proof.
  replace (length l) with (length l + 0) by lia.
  now rewrite insert_app_r.
Qed.

Lemma lookup_app_add {A} (l k : list A) (i : nat) :
  (l ++ k) !! (length l + i) = k !! i.
Proof. rewrite lookup_app_r by lia. f_equal. lia. Qed.

(** ** Writes of the library keep the shape of the heap *)

Lemma same_kind_refl o : same_kind o o.
Proof. destruct o; simpl; auto. Qed.

Lemma same_kind_trans o1 o2 o3 :
  same_kind o1 o2 -> same_kind o2 o3 -> same_kind o1 o3.
Proof. destruct o1, o2, o3; simpl; intros; subst; auto; contradiction. Qed.

Lemma apply_write_kind h w l o :
  h !! l = Some o ->
  exists o', apply_write h w !! l = Some o' /\ same_kind o o'.
Proof.
  intros Hl.
  assert (Hkeep : exists o', h !! l = Some o' /\ same_kind o o')
    by (exists o; split; [assumption | apply same_kind_refl]).
  assert (Hupd : forall l0 o0 o1, h !! l0 = Some o0 -> same_kind o0 o1 ->
            exists o', <[l0 := o1]> h !! l = Some o' /\ same_kind o o').
  { intros l0 o0 o1 H0 Hk. destruct (decide (l0 = l)) as [->|Hne].
    - exists o1. split.
      + apply list_lookup_insert_eq. now apply lookup_lt_Some in Hl.
      + rewrite Hl in H0. now injection H0 as <-.
    - rewrite list_lookup_insert_ne by assumption. exact Hkeep. }
  destruct w as [o0|l0 n v|l0 n|l0 k v|l0 k|l0 xs]; simpl.
  - exists o. split; [|apply same_kind_refl].
    rewrite lookup_app_l; [assumption | now apply lookup_lt_Some in Hl].
  - destruct (h !! l0) as [[d|xs|c a]|] eqn:E; auto. eapply Hupd; eauto. reflexivity.
  - destruct (h !! l0) as [[d|xs|c a]|] eqn:E; auto. eapply Hupd; eauto. reflexivity.
  - destruct (h !! l0) as [[d|xs|c a]|] eqn:E; auto. eapply Hupd; eauto. exact I.
  - destruct (h !! l0) as [[d|xs|c a]|] eqn:E; auto. eapply Hupd; eauto. exact I.
  - destruct (h !! l0) as [[d|ys|c a]|] eqn:E; auto. eapply Hupd; eauto. exact I.
Qed.

Lemma apply_writes_kind ws h l o :
  h !! l = Some o ->
  exists o', apply_writes ws h !! l = Some o' /\ same_kind o o'.
Proof.
  unfold apply_writes. revert h o.
  induction ws as [|w ws IH]; simpl; intros h o Hl.
  - exists o. split; [assumption | apply same_kind_refl].
  - destruct (apply_write_kind h w l o Hl) as (o1 & H1 & K1).
    destruct (IH _ _ H1) as (o2 & H2 & K2).
    exists o2. split; [assumption | eapply same_kind_trans; eauto].
Qed.

Lemma apply_writes_inst ws h l c a :
  h !! l = Some (OInst c a) ->
  exists a', apply_writes ws h !! l = Some (OInst c a').
Proof.
  intros Hl. destruct (apply_writes_kind ws h l _ Hl) as ([d|xs|c' a'] & H & K);
    simpl in K; try contradiction. subst c'. now exists a'.
Qed.

Lemma apply_writes_dict ws h l d :
  h !! l = Some (ODict d) ->
  exists d', apply_writes ws h !! l = Some (ODict d').
Proof.
  intros Hl. destruct (apply_writes_kind ws h l _ Hl) as ([d'|xs|c' a'] & H & K);
    simpl in K; try contradiction. now exists d'.
Qed.

Lemma apply_writes_app ws1 ws2 h :
  apply_writes (ws1 ++ ws2) h = apply_writes ws2 (apply_writes ws1 h).
Proof. apply fold_left_app. Qed.

(** ** Symbolic execution *)

Section Execution.

Variable L : library.

Lemma bind_assoc {A B C} (m : M A) (g : A -> M B) (f : B -> M C) s :
  bind (bind m g) f s = bind m (fun x => bind (g x) f) s.
Proof. unfold bind. destruct (m s) as [s' [a|e]]; reflexivity. Qed.

Lemma bind_ret {A B} (a : A) (f : A -> M B) s : bind (ret a) f s = f a s.
Proof. reflexivity. Qed.

Lemma bind_raise {A B} e (f : A -> M B) s : bind (raise e) f s = (s, Raise e).
Proof. reflexivity. Qed.

Lemma bind_alloc_inst {B} k (f : loc -> M B) Is h t :
  bind (alloc_inst k) f (mk_state Is h t)
  = f (length Is) (mk_state (Is ++ [mk_instance k []]) h t).
Proof. reflexivity. Qed.

Lemma bind_class_of {B} (f : klass -> M B) Is k d h t :
  bind (class_of (length Is)) f (mk_state (Is ++ [mk_instance k d]) h t)
  = f k (mk_state (Is ++ [mk_instance k d]) h t).
Proof. unfold bind, class_of; cbn [insts]. now rewrite lookup_snoc. Qed.

Lemma bind_setattr {B} (f : unit -> M B) Is k d h t n v :
  bind (setattr (length Is) n v) f (mk_state (Is ++ [mk_instance k d]) h t)
  = f tt (mk_state (Is ++ [mk_instance k (dict_set n v d)]) h t).
Proof.
  unfold bind, setattr; cbn [insts heap trace].
  now rewrite lookup_snoc, insert_snoc.
Qed.

Lemma bind_getattr {B} (f : pyval -> M B) Is k d h t n :
  bind (getattr (length Is) n) f (mk_state (Is ++ [mk_instance k d]) h t)
  = match dict_get n d with
    | Some v => f v (mk_state (Is ++ [mk_instance k d]) h t)
    | None => (mk_state (Is ++ [mk_instance k d]) h t, Raise (AttributeError n))
    end.
Proof.
  unfold bind, getattr; cbn [insts heap trace]. rewrite lookup_snoc.
  cbn [i_dict]. destruct (dict_get n d); reflexivity.
Qed.

Lemma bind_new_dict {B} (f : pyval -> M B) Is h t items :
  bind (new_dict items) f (mk_state Is h t)
  = f (VObj (length h)) (mk_state Is (h ++ [ODict (dict_display items)]) t).
Proof. reflexivity. Qed.

Lemma bind_new_list {B} (f : pyval -> M B) Is h t xs :
  bind (new_list xs) f (mk_state Is h t)
  = f (VObj (length h)) (mk_state Is (h ++ [OList xs]) t).
Proof. reflexivity. Qed.

Lemma bind_new_lib {B} (f : pyval -> M B) Is h t cls kw :
  bind (new_lib L cls kw) f (mk_state Is h t)
  = match lib_new L cls kw h with
    | Ok attrs =>
        f (VObj (length h))
          (mk_state Is (h ++ [OInst cls attrs]) (t ++ [ENew cls kw h]))
    | Raise e => (mk_state Is h (t ++ [ENew cls kw h]), Raise e)
    end.
Proof.
  unfold bind, new_lib; cbn [insts heap trace].
  destruct (lib_new L cls kw h); reflexivity.
Qed.

Lemma bind_store_attr_obj {B} (f : unit -> M B) Is h t l c a n v :
  h !! l = Some (OInst c a) ->
  bind (store_attr (VObj l) n v) f (mk_state Is h t)
  = f tt (mk_state Is (<[l := OInst c (dict_set n v a)]> h) t).
Proof.
  intros E. unfold bind, store_attr; cbn [insts heap trace]. now rewrite E.
Qed.

Lemma bind_get_method_lib {B} (f : bound -> M B) Is h t l c a meth :
  h !! l = Some (OInst c a) ->
  bind (get_method (VObj l) meth) f (mk_state Is h t)
  = f (BLib c meth l) (mk_state Is h t).
Proof. intros E. unfold bind, get_method; cbn [heap]. now rewrite E. Qed.

Lemma bind_get_method_get {B} (f : bound -> M B) Is h t l d :
  h !! l = Some (ODict d) ->
  bind (get_method (VObj l) "get") f (mk_state Is h t)
  = f (BDictGet l) (mk_state Is h t).
Proof. intros E. unfold bind, get_method; cbn [heap]. now rewrite E. Qed.

Lemma bind_dict_get {B} (f : pyval -> M B) Is h t l d k :
  h !! l = Some (ODict d) ->
  bind (invoke L (BDictGet l) [VStr k] []) f (mk_state Is h t)
  = f (default VNone (dict_get k d)) (mk_state Is h t).
Proof. intros E. unfold bind, invoke; cbn [heap]. now rewrite E. Qed.

Lemma bind_unpack_kwargs {B} (f : dict -> M B) Is h t l d :
  h !! l = Some (ODict d) ->
  bind (unpack_kwargs (VObj l)) f (mk_state Is h t) = f d (mk_state Is h t).
Proof. intros E. unfold bind, unpack_kwargs; cbn [heap]. now rewrite E. Qed.

Lemma run_invoke_lib Is h t c meth l pos kw :
  invoke L (BLib c meth l) pos kw (mk_state Is h t)
  = (mk_state Is (apply_writes (r_writes (lib_call L c meth l pos kw h)) h)
       (t ++ [ECall c meth l pos kw h]),
     r_out (lib_call L c meth l pos kw h)).
Proof. reflexivity. Qed.

Lemma bind_invoke_lib {B} (f : pyval -> M B) Is h t c meth l pos kw :
  bind (invoke L (BLib c meth l) pos kw) f (mk_state Is h t)
  = match r_out (lib_call L c meth l pos kw h) with
    | Ok v =>
        f v (mk_state Is
               (apply_writes (r_writes (lib_call L c meth l pos kw h)) h)
               (t ++ [ECall c meth l pos kw h]))
    | Raise e =>
        (mk_state Is
           (apply_writes (r_writes (lib_call L c meth l pos kw h)) h)
           (t ++ [ECall c meth l pos kw h]), Raise e)
    end.
Proof.
  unfold bind. rewrite run_invoke_lib. destruct (r_out _); reflexivity.
Qed.

Lemma run_base_init Is k d h t model :
  TFParkKerasModel___init__ L (length Is) model
    (mk_state (Is ++ [mk_instance k d]) h t)
  = (mk_state
       (Is ++ [mk_instance k (b_attrs (lib_base_init L d model h))])
       (apply_writes (b_writes (lib_base_init L d model h)) h)
       (t ++ [ESuperInit (length Is) d model h]),
     b_out (lib_base_init L d model h)).
Proof.
  unfold TFParkKerasModel___init__; cbn [insts heap trace i_dict i_class].
  now rewrite lookup_snoc, insert_snoc.
Qed.

Lemma bind_base_init {B} (f : unit -> M B) Is k d h t model :
  bind (TFParkKerasModel___init__ L (length Is) model) f
    (mk_state (Is ++ [mk_instance k d]) h t)
  = match b_out (lib_base_init L d model h) with
    | Ok u =>
        f u (mk_state
               (Is ++ [mk_instance k (b_attrs (lib_base_init L d model h))])
               (apply_writes (b_writes (lib_base_init L d model h)) h)
               (t ++ [ESuperInit (length Is) d model h]))
    | Raise e =>
        (mk_state
           (Is ++ [mk_instance k (b_attrs (lib_base_init L d model h))])
           (apply_writes (b_writes (lib_base_init L d model h)) h)
           (t ++ [ESuperInit (length Is) d model h]), Raise e)
    end.
Proof.
  unfold bind. rewrite run_base_init. destruct (b_out _); reflexivity.
Qed.

(** The library base class has no abstract method, so the abstract names
    of the module's classes come from [Forecaster] alone. *)
Lemma abstractmethods_base : abstractmethods_of L [TFParkKerasModel] = [].
Proof.
  unfold abstractmethods_of, declared, declared_TFParkKerasModel.
  rewrite app_nil_r.
  induction (lib_base_methods L) as [|n ns IH]; simpl; auto.
Qed.

Lemma abstractmethods_Forecaster : abstractmethods L Forecaster = ["_build"].
Proof.
  unfold abstractmethods, mro.
  change (abstractmethods_of L [Forecaster; TFParkKerasModel])
    with ("_build" ::
          List.filter (still_abstract L [Forecaster; TFParkKerasModel])
            (abstractmethods_of L [TFParkKerasModel])).
  now rewrite abstractmethods_base.
Qed.

Lemma abstractmethods_LSTMForecaster : abstractmethods L LSTMForecaster = [].
Proof.
  unfold abstractmethods, mro.
  change (abstractmethods_of L [LSTMForecaster; Forecaster; TFParkKerasModel])
    with (List.filter
            (still_abstract L [LSTMForecaster; Forecaster; TFParkKerasModel])
            ("_build" ::
             List.filter (still_abstract L [Forecaster; TFParkKerasModel])
               (abstractmethods_of L [TFParkKerasModel]))).
  now rewrite abstractmethods_base.
Qed.

Lemma abstractmethods_MTNetForecaster : abstractmethods L MTNetForecaster = [].
Proof.
  unfold abstractmethods, mro.
  change (abstractmethods_of L [MTNetForecaster; Forecaster; TFParkKerasModel])
    with (List.filter
            (still_abstract L [MTNetForecaster; Forecaster; TFParkKerasModel])
            ("_build" ::
             List.filter (still_abstract L [Forecaster; TFParkKerasModel])
               (abstractmethods_of L [TFParkKerasModel]))).
  now rewrite abstractmethods_base.
Qed.

End Execution.

Ltac store_norm :=
  rewrite <- ?app_assoc; cbn [app]; rewrite ?length_app; cbn [length].

(** Heap lookups in a heap extended by known objects. *)
Ltac heap_lookup :=
  first [ eassumption
        | apply lookup_snoc
        | store_norm;
          first [ apply (list_lookup_middle _ _ _ _ eq_refl)
                | rewrite lookup_app_add; reflexivity ] ].

Ltac py_simpl :=
  cbn [dict_get dict_set dict_has dict_keys dict_display dict_update fold_left
       fst snd String.eqb Ascii.eqb Bool.eqb default from_option id existsb
       map orb app find_method mro method_flag declared].

(** One step of a computation in a state whose newest instance is [self]. *)
Ltac step :=
  first
    [ rewrite bind_assoc
    | rewrite bind_ret
    | rewrite bind_raise
    | rewrite bind_alloc_inst
    | rewrite bind_class_of
    | rewrite bind_setattr
    | rewrite bind_getattr
    | rewrite bind_new_dict
    | rewrite bind_new_list
    | rewrite bind_new_lib
    | erewrite bind_store_attr_obj by heap_lookup
    | erewrite bind_get_method_lib by heap_lookup
    | erewrite bind_get_method_get by heap_lookup
    | erewrite bind_dict_get by heap_lookup
    | erewrite bind_unpack_kwargs by heap_lookup ];
  py_simpl; rewrite ?insert_snoc.

(** ** The two constructions, run to the end *)

Section Runs.

Variable L : library.

Lemma construct_LSTM_run Is H T a :
  let cfg :=
    [("lr", LSTM.lr a); ("lstm_1_units", LSTM.lstm_1_units a);
     ("dropout_1", LSTM.dropout_1 a); ("lstm_2_units", LSTM.lstm_2_units a);
     ("dropout_2", LSTM.dropout_2 a); ("metric", LSTM.metric a)] in
  let attrs :=
    [("horizon", LSTM.horizon a); ("check_optional_config", VBool false);
     ("uncertainty", LSTM.uncertainty a); ("feature_dim", LSTM.feature_dim a);
     ("model_config", VObj (length H))] in
  let new_kw :=
    [("check_optional_config", VBool false);
     ("future_seq_len", LSTM.horizon a)] in
  let h0 := H ++ [ODict cfg] in
  let t1 := [ENew "LSTMKerasModel" new_kw h0] in
  construct L LSTMForecaster (LSTMArgs a) (mk_state Is H T) =
  match lib_new L "LSTMKerasModel" new_kw h0 with
  | Raise e =>
      (mk_state (Is ++ [mk_instance LSTMForecaster attrs]) h0 (T ++ t1),
       Raise e)
  | Ok ia =>
      let h1 :=
        H ++ [ODict cfg;
              OInst "LSTMKerasModel"
                (dict_set "feature_num" (LSTM.feature_dim a) ia)] in
      let kw := ("mc", LSTM.uncertainty a) :: cfg in
      let r := lib_call L "LSTMKerasModel" "_build" (length H + 1) [] kw h1 in
      let h2 := apply_writes (r_writes r) h1 in
      let t2 :=
        t1 ++ [ECall "LSTMKerasModel" "_build" (length H + 1) [] kw h1] in
      match r_out r with
      | Raise e =>
          (mk_state (Is ++ [mk_instance LSTMForecaster attrs]) h2 (T ++ t2),
           Raise e)
      | Ok m =>
          let attrs' := attrs ++ [("model_", m)] in
          let b := lib_base_init L attrs' m h2 in
          (mk_state
             (Is ++ [mk_instance LSTMForecaster (b_attrs b)])
             (apply_writes (b_writes b) h2)
             (T ++ t2 ++ [ESuperInit (length Is) attrs' m h2]),
           match b_out b with
           | Ok _ => Ok (length Is)
           | Raise e => Raise e
           end)
      end
  end.
Proof.
  cbv zeta.
  unfold construct. rewrite abstractmethods_LSTMForecaster.
  step. unfold call___init__. do 2 step. unfold LSTMForecaster___init__.
  do 6 step. unfold Forecaster___init__, call__build. do 3 step.
  unfold LSTMForecaster__build. repeat step.
  destruct (lib_new L _ _ _) as [ia|e]; [|reflexivity].
  repeat step. unfold join_kwargs. py_simpl.
  repeat step. rewrite bind_invoke_lib. store_norm.
  destruct (r_out _) as [m|e]; [|reflexivity].
  repeat step. rewrite bind_base_init. store_norm.
  destruct (b_out _); reflexivity.
Qed.

Lemma construct_MTNet_run Is H T a :
  let cfg :=
    [("feature_num", MTNet.feature_dim a); ("output_dim", MTNet.horizon a);
     ("metrics", VObj (length H))] in
  let attrs0 :=
    [("check_optional_config", VBool false); ("mc", MTNet.uncertainty a);
     ("model_config", VObj (length H + 1)); ("internal", VNone)] in
  let attrs :=
    [("check_optional_config", VBool false); ("mc", MTNet.uncertainty a);
     ("model_config", VObj (length H + 1));
     ("internal", VObj (length H + 2))] in
  let new_kw :=
    [("check_optional_config", VBool false); ("future_seq_len", VNone)] in
  let h0 := H ++ [OList [MTNet.metric a]; ODict cfg] in
  let t0 := [ENew "MTNetKerasModel" new_kw h0] in
  construct L MTNetForecaster (MTNetArgs a) (mk_state Is H T) =
  match lib_new L "MTNetKerasModel" new_kw h0 with
  | Raise e =>
      (mk_state (Is ++ [mk_instance MTNetForecaster attrs0]) h0 (T ++ t0),
       Raise e)
  | Ok ia =>
      let h1 :=
        H ++ [OList [MTNet.metric a]; ODict cfg; OInst "MTNetKerasModel" ia] in
      let kw1 :=
        [("mc", MTNet.uncertainty a); ("metrics", VObj (length H));
         ("epochs", VInt 1); ("config", VObj (length H + 1))] in
      let r1 :=
        lib_call L "MTNetKerasModel" "_get_attributes" (length H + 2) [] kw1
          h1 in
      let h2 := apply_writes (r_writes r1) h1 in
      let kw2 :=
        [("mc", MTNet.uncertainty a);
         ("metrics",
          default VNone (dict_get "metrics" (dict_at h2 (length H + 1))))] in
      let r2 :=
        lib_call L "MTNetKerasModel" "_build_train" (length H + 2) [] kw2 h2 in
      let h3 := apply_writes (r_writes r2) h2 in
      let t1 :=
        t0 ++
        [ECall "MTNetKerasModel" "_get_attributes" (length H + 2) [] kw1 h1] in
      let t2 :=
        t1 ++
        [ECall "MTNetKerasModel" "_build_train" (length H + 2) [] kw2 h2] in
      match r_out r1 with
      | Raise e =>
          (mk_state (Is ++ [mk_instance MTNetForecaster attrs]) h2 (T ++ t1),
           Raise e)
      | Ok _ =>
          match r_out r2 with
          | Raise e =>
              (mk_state (Is ++ [mk_instance MTNetForecaster attrs]) h3
                 (T ++ t2),
               Raise e)
          | Ok m =>
              let attrs' := attrs ++ [("model_", m)] in
              let b := lib_base_init L attrs' m h3 in
              (mk_state
                 (Is ++ [mk_instance MTNetForecaster (b_attrs b)])
                 (apply_writes (b_writes b) h3)
                 (T ++ t2 ++ [ESuperInit (length Is) attrs' m h3]),
               match b_out b with
               | Ok _ => Ok (length Is)
               | Raise e => Raise e
               end)
          end
      end
  end.
Proof.
  cbv zeta.
  unfold construct. rewrite abstractmethods_MTNetForecaster.
  step. unfold call___init__. do 2 step. unfold MTNetForecaster___init__.
  do 6 step. unfold Forecaster___init__, call__build. do 3 step.
  unfold MTNetForecaster__build. repeat step. store_norm.
  destruct (lib_new L _ _ _) as [ia|e]; [|reflexivity].
  repeat step.
  rewrite bind_invoke_lib. store_norm.
  match goal with
  | |- context [apply_writes ?ws ?h1] =>
      destruct (apply_writes_inst ws h1 (length H + 2) "MTNetKerasModel" ia)
        as [a2 Hi];
      [ rewrite lookup_app_add; reflexivity | ];
      destruct (apply_writes_dict ws h1 (length H + 1)
                  [("feature_num", MTNet.feature_dim a);
                   ("output_dim", MTNet.horizon a);
                   ("metrics", VObj (length H))]) as [d2 Hc];
      [ rewrite lookup_app_add; reflexivity | ]
  end.
  unfold dict_at. rewrite Hc.
  destruct (r_out _) as [v1|e1]; [|reflexivity].
  repeat step. rewrite bind_invoke_lib. store_norm.
  destruct (r_out _) as [m|e2]; [|reflexivity].
  repeat step. rewrite bind_base_init. store_norm.
  destruct (b_out _); reflexivity.
Qed.
End Runs.

Ltac run_construct :=
  unfold events_of;
  first [ rewrite construct_LSTM_run | rewrite construct_MTNet_run ];
  cbv zeta; cbn [trace app].

(** The outcomes of the library along a run, one case for each. *)
Ltac outcome_cases :=
  repeat
    match goal with
    | |- context [match lib_new ?L ?c ?kw ?h with Ok _ => _ | Raise _ => _ end] =>
        destruct (lib_new L c kw h) eqn:?
    | |- context [match r_out ?r with Ok _ => _ | Raise _ => _ end] =>
        destruct (r_out r) eqn:?
    | |- context [match b_out ?b with Ok _ => _ | Raise _ => _ end] =>
        destruct (b_out b) eqn:?
    end.

Ltac recall_outcomes :=
  repeat
    match goal with
    | E : ?x = Ok _ |- context [?x] => rewrite E
    | E : ?x = Raise _ |- context [?x] => rewrite E
    end.

Ltac observe :=
  cbn [fst snd insts heap trace]; rewrite ?drop_app_length;
  cbn [news calls super_inits List.filter is_new is_call is_super_init
       kwargs_of map andb String.eqb Ascii.eqb Bool.eqb app dict_get].

(** The answers of the library at the events of a run. *)
Ltac answers :=
  unfold returns_normally, raised;
  cbn [returned forallb map andb is_ok]; recall_outcomes;
  cbn [forallb map andb is_ok].

(** ** What the initializers store before they delegate *)

Section Init.
Variable L : library.

(** What [LSTMForecaster.__init__] has stored when it hands over to
    [Forecaster.__init__]. *)
Lemma LSTM_init_prepares Is H T a :
  LSTMForecaster___init__ L (length Is) a
    (mk_state (Is ++ [mk_instance LSTMForecaster []]) H T)
  = Forecaster___init__ L (length Is)
      (mk_state
         (Is ++
          [mk_instance LSTMForecaster
             [("horizon", LSTM.horizon a);
              ("check_optional_config", VBool false);
              ("uncertainty", LSTM.uncertainty a);
              ("feature_dim", LSTM.feature_dim a);
              ("model_config", VObj (length H))]])
         (H ++
          [ODict
             [("lr", LSTM.lr a);
              ("lstm_1_units", LSTM.lstm_1_units a);
              ("dropout_1", LSTM.dropout_1 a);
              ("lstm_2_units", LSTM.lstm_2_units a);
              ("dropout_2", LSTM.dropout_2 a);
              ("metric", LSTM.metric a)]])
         T).
Proof. unfold LSTMForecaster___init__. do 6 step. reflexivity. Qed.

Lemma MTNet_init_prepares Is H T a :
  MTNetForecaster___init__ L (length Is) a
    (mk_state (Is ++ [mk_instance MTNetForecaster []]) H T)
  = Forecaster___init__ L (length Is)
      (mk_state
         (Is ++
          [mk_instance MTNetForecaster
             [("check_optional_config", VBool false);
              ("mc", MTNet.uncertainty a);
              ("model_config", VObj (length H + 1));
              ("internal", VNone)]])
         (H ++
          [OList [MTNet.metric a];
           ODict
             [("feature_num", MTNet.feature_dim a);
              ("output_dim", MTNet.horizon a);
              ("metrics", VObj (length H))]])
         T).
Proof.
  unfold MTNetForecaster___init__. do 6 step. store_norm. reflexivity.
Qed.
End Init.

(** ** The stores after a construction *)

Ltac shape_norm :=
  cbn [fst snd insts heap trace]; unfold library_writes;
  rewrite ?drop_app_length, ?drop_all;
  cbn [map concat writes_of app]; rewrite ?app_nil_r.

Ltac shape_split :=
  split; [reflexivity | split; [rewrite ?apply_writes_app; reflexivity | ]];
  first [exact I | split; reflexivity].

Ltac shape_done := shape_norm; shape_split.

(** The stores after a construction: the instances and the heap are
    extended, and the heap is otherwise changed by the writes of the
    library alone. *)
Lemma construct_shape L Is H T k args :
  exists new fresh,
    insts (fst (construct L k args (mk_state Is H T))) = Is ++ new
    /\ heap (fst (construct L k args (mk_state Is H T)))
       = apply_writes
           (library_writes L
              (events_of (construct L k args) (mk_state Is H T)))
           (H ++ fresh)
    /\ match snd (construct L k args (mk_state Is H T)) with
       | Ok self => self = length Is /\ length new = 1
       | Raise _ => True
       end.
Proof.
  destruct k.
  - (* the library class itself *)
    exists [mk_instance TFParkKerasModel []], [].
    unfold events_of, construct, abstractmethods. cbn [mro].
    rewrite abstractmethods_base. step. unfold call___init__. do 2 step.
    destruct (method_flag "__init__" (declared_TFParkKerasModel L));
      rewrite bind_raise; shape_done.
  - exists [], [].
    unfold events_of, construct. rewrite abstractmethods_Forecaster.
    unfold raise. shape_done.
  - destruct args as [|a|a].
    + exists [mk_instance LSTMForecaster []], [].
      unfold events_of, construct. rewrite abstractmethods_LSTMForecaster.
      step. unfold call___init__. do 2 step. rewrite bind_raise. shape_done.
    + run_construct.
      outcome_cases; shape_norm; do 2 eexists; shape_split.
    + exists [mk_instance LSTMForecaster []], [].
      unfold events_of, construct. rewrite abstractmethods_LSTMForecaster.
      step. unfold call___init__. do 2 step. rewrite bind_raise. shape_done.
  - destruct args as [|a|a].
    + exists [mk_instance MTNetForecaster []], [].
      unfold events_of, construct. rewrite abstractmethods_MTNetForecaster.
      step. unfold call___init__. do 2 step. rewrite bind_raise. shape_done.
    + exists [mk_instance MTNetForecaster []], [].
      unfold events_of, construct. rewrite abstractmethods_MTNetForecaster.
      step. unfold call___init__. do 2 step. rewrite bind_raise. shape_done.
    + run_construct.
      outcome_cases; shape_norm; do 2 eexists; shape_split.
Qed.

(** ** The module run against the stub library *)

Example stub_LSTM_defaults :
  snd (construct stub_library LSTMForecaster (LSTMArgs LSTM.defaults)
         empty_state) = Ok 0
  /\ map kwargs_of
       (calls "LSTMKerasModel" "_build"
          (events_of
             (construct stub_library LSTMForecaster (LSTMArgs LSTM.defaults))
             empty_state))
     = [[("mc", VBool false); ("lr", LSTM.lr LSTM.defaults);
         ("lstm_1_units", VInt 16);
         ("dropout_1", LSTM.dropout_1 LSTM.defaults);
         ("lstm_2_units", VInt 8);
         ("dropout_2", LSTM.dropout_2 LSTM.defaults);
         ("metric", VStr "mean_squared_error")]].
Proof. split; vm_compute; reflexivity. Qed.

Example stub_MTNet_defaults :
  trace (fst (construct stub_library MTNetForecaster (MTNetArgs MTNet.defaults)
                empty_state))
  = [ENew "MTNetKerasModel"
       [("check_optional_config", VBool false); ("future_seq_len", VNone)]
       [OList [VStr "mean_squared_error"];
        ODict [("feature_num", VInt 1); ("output_dim", VInt 1);
               ("metrics", VObj 0)]];
     ECall "MTNetKerasModel" "_get_attributes" 2 []
       [("mc", VBool false); ("metrics", VObj 0); ("epochs", VInt 1);
        ("config", VObj 1)]
       [OList [VStr "mean_squared_error"];
        ODict [("feature_num", VInt 1); ("output_dim", VInt 1);
               ("metrics", VObj 0)];
        OInst "MTNetKerasModel"
          [("check_optional_config", VBool false); ("future_seq_len", VNone)]];
     ECall "MTNetKerasModel" "_build_train" 2 []
       [("mc", VBool false); ("metrics", VObj 0)]
       [OList [VStr "mean_squared_error"];
        ODict [("feature_num", VInt 1); ("output_dim", VInt 1);
               ("metrics", VObj 0)];
        OInst "MTNetKerasModel"
          [("check_optional_config", VBool false); ("future_seq_len", VNone);
           ("mc", VBool false); ("feature_num", VInt 1);
           ("output_dim", VInt 1); ("metrics", VObj 0)]];
     ESuperInit 0
       [("check_optional_config", VBool false); ("mc", VBool false);
        ("model_config", VObj 1); ("internal", VObj 2); ("model_", VObj 3)]
       (VObj 3)
       [OList [VStr "mean_squared_error"];
        ODict [("feature_num", VInt 1); ("output_dim", VInt 1);
               ("metrics", VObj 0)];
        OInst "MTNetKerasModel"
          [("check_optional_config", VBool false); ("future_seq_len", VNone);
           ("mc", VBool false); ("feature_num", VInt 1);
           ("output_dim", VInt 1); ("metrics", VObj 0)];
        OInst "Model" [("built_by", VObj 2)]]].
Proof. vm_compute. reflexivity. Qed.

Example stub_preprocess_input :
  snd (MTNetForecaster_preprocess_input stub_library 0 (VInt 7)
         (fst (construct stub_library MTNetForecaster
                 (MTNetArgs MTNet.defaults) empty_state)))
  = Ok (VInt 7).
Proof. vm_compute. reflexivity. Qed.

(** Before [_build] has run, [internal] is [None] and [preprocess_input]
    raises. *)
Example preprocess_input_on_None :
  snd (MTNetForecaster_preprocess_input stub_library 0 (VInt 7)
         (mk_state [mk_instance MTNetForecaster [("internal", VNone)]] [] []))
  = Raise (AttributeError "_gen_hist_inputs").
Proof. reflexivity. Qed.

Example stub_Forecaster_abstract :
  construct stub_library Forecaster NoArgs empty_state
  = (empty_state, Raise (TypeError "Can't instantiate abstract class")).
Proof. reflexivity. Qed.

(** When the model class cannot be instantiated, the construction ends
    there: the exception comes out, and the library was asked for nothing
    else. *)
Example refusing_MTNet_defaults :
  snd (construct refusing_library MTNetForecaster (MTNetArgs MTNet.defaults)
         empty_state) = Raise (LibraryError (VStr "no backend"))
  /\ map label_of
       (events_of
          (construct refusing_library MTNetForecaster
             (MTNetArgs MTNet.defaults)) empty_state)
     = [LNew "MTNetKerasModel"].
Proof. split; vm_compute; reflexivity. Qed.

(** * The claims *)

(** C1, at a failing input.  [MTNetForecaster(horizon=3)] instantiates
    [MTNetKerasModel] with [future_seq_len = None], which is not the
    horizon.  ([LSTMForecaster] does forward its horizon, see
    [LSTM_future_seq_len_is_horizon] below.) *)
Theorem MTNet_future_seq_len_ignores_horizon :
  forall (L : library) (s : state),
    let a :=
      MTNet.mk_args (VInt 3) (VInt 1) (VStr "mean_squared_error")
        (VBool false) in
    let evs := events_of (construct L MTNetForecaster (MTNetArgs a)) s in
    map (dict_get "future_seq_len") (map kwargs_of (news "MTNetKerasModel" evs))
      = [Some VNone]
    /\ Some VNone <> Some (MTNet.horizon a).
Proof.
  intros L [Is H T] a evs. subst evs. split; [|discriminate].
  run_construct. outcome_cases; observe; reflexivity.
Qed.

(** The other half of C1: [LSTMForecaster] instantiates [LSTMKerasModel]
    with [future_seq_len] equal to its horizon. *)
Lemma LSTM_future_seq_len_is_horizon :
  forall (L : library) (s : state) (a : LSTM.args),
    let evs := events_of (construct L LSTMForecaster (LSTMArgs a)) s in
    map (dict_get "future_seq_len") (map kwargs_of (news "LSTMKerasModel" evs))
      = [Some (LSTM.horizon a)].
Proof.
  intros L [Is H T] a evs. subst evs. run_construct.
  outcome_cases; observe; reflexivity.
Qed.





(** C4.  From any state, [LSTMForecaster.__init__] leaves [model_config]
    bound to a new dictionary with exactly the keys [lr], [lstm_1_units],
    [dropout_1], [lstm_2_units], [dropout_2], [metric] and the values of
    the arguments, and [_build] passes its items, after [mc], as the
    keyword arguments of the internal model's [_build].
    [MTNetForecaster.__init__] leaves [model_config] bound to a new
    dictionary [feature_num = feature_dim], [output_dim = horizon],
    [metrics = [metric]], and [_build] passes that dictionary as the
    [config] argument of [_get_attributes].  Each of the two calls is made
    once when the internal model was instantiated, and not at all when the
    instantiation raised. *)
Theorem hyperparameters_forwarded_in_model_config :
  forall (L : library) (Is : list instance) (H : list pyobj) (T : list event),
    (forall a : LSTM.args,
       let cfg :=
         [("lr", LSTM.lr a);
          ("lstm_1_units", LSTM.lstm_1_units a);
          ("dropout_1", LSTM.dropout_1 a);
          ("lstm_2_units", LSTM.lstm_2_units a);
          ("dropout_2", LSTM.dropout_2 a);
          ("metric", LSTM.metric a)] in
       let evs :=
         events_of (construct L LSTMForecaster (LSTMArgs a))
           (mk_state Is H T) in
       (exists attrs,
          LSTMForecaster___init__ L (length Is) a
            (mk_state (Is ++ [mk_instance LSTMForecaster []]) H T)
          = Forecaster___init__ L (length Is)
              (mk_state (Is ++ [mk_instance LSTMForecaster attrs])
                 (H ++ [ODict cfg]) T)
          /\ dict_get "model_config" attrs = Some (VObj (length H)))
       /\ exists n,
            news "LSTMKerasModel" evs = [n]
            /\ map kwargs_of (calls "LSTMKerasModel" "_build" evs)
               = if is_ok (returned L n)
                 then [("mc", LSTM.uncertainty a) :: cfg]
                 else [])
    /\ (forall a : MTNet.args,
       let cfg :=
         [("feature_num", MTNet.feature_dim a);
          ("output_dim", MTNet.horizon a);
          ("metrics", VObj (length H))] in
       let evs :=
         events_of (construct L MTNetForecaster (MTNetArgs a))
           (mk_state Is H T) in
       (exists attrs,
          MTNetForecaster___init__ L (length Is) a
            (mk_state (Is ++ [mk_instance MTNetForecaster []]) H T)
          = Forecaster___init__ L (length Is)
              (mk_state (Is ++ [mk_instance MTNetForecaster attrs])
                 (H ++ [OList [MTNet.metric a]; ODict cfg]) T)
          /\ dict_get "model_config" attrs = Some (VObj (length H + 1)))
       /\ exists n,
            news "MTNetKerasModel" evs = [n]
            /\ if is_ok (returned L n)
               then
                 exists l kw h,
                   calls "MTNetKerasModel" "_get_attributes" evs
                   = [ECall "MTNetKerasModel" "_get_attributes" l [] kw h]
                   /\ dict_get "config" kw = Some (VObj (length H + 1))
                   /\ h !! (length H + 1) = Some (ODict cfg)
                   /\ h !! length H = Some (OList [MTNet.metric a])
               else calls "MTNetKerasModel" "_get_attributes" evs = []).
Proof.
  intros L Is H T. split.
  - intros a cfg evs. subst cfg evs. split.
    + eexists. split; [apply LSTM_init_prepares | reflexivity].
    + run_construct.
      outcome_cases; observe; eexists; (split; [reflexivity|]); answers;
        reflexivity.
  - intros a cfg evs. subst cfg evs. split.
    + eexists. split; [apply MTNet_init_prepares | reflexivity].
    + run_construct.
      outcome_cases; observe; eexists; (split; [reflexivity|]); answers;
        try reflexivity;
        (do 3 eexists; split; [reflexivity|]; split; [reflexivity|];
         split; [rewrite lookup_app_add; reflexivity
                | now apply list_lookup_middle]).
Qed.

(** C5.  For every boolean [u] given as [uncertainty], the flag reaches
    the library unchanged: [LSTMForecaster] calls [_build] once, with
    [mc = u]; [MTNetForecaster] calls [_get_attributes] once, with
    [mc = u], and calls [_build_train] with [mc = u], once when
    [_get_attributes] returned and not at all when it raised.  No call is
    made when the instantiation of the internal model raised. *)
Theorem uncertainty_forwarded_as_mc :
  forall (L : library) (s : state) (u : bool),
    (forall h fd u1 d1 u2 d2 met lr,
       let a := LSTM.mk_args h fd u1 d1 u2 d2 met lr (VBool u) in
       let evs := events_of (construct L LSTMForecaster (LSTMArgs a)) s in
       exists n,
         news "LSTMKerasModel" evs = [n]
         /\ map (dict_get "mc")
              (map kwargs_of (calls "LSTMKerasModel" "_build" evs))
            = if is_ok (returned L n) then [Some (VBool u)] else [])
    /\ (forall h fd met,
       let a := MTNet.mk_args h fd met (VBool u) in
       let evs := events_of (construct L MTNetForecaster (MTNetArgs a)) s in
       exists n,
         news "MTNetKerasModel" evs = [n]
         /\ if is_ok (returned L n)
            then
              exists e,
                calls "MTNetKerasModel" "_get_attributes" evs = [e]
                /\ dict_get "mc" (kwargs_of e) = Some (VBool u)
                /\ map (dict_get "mc")
                     (map kwargs_of
                        (calls "MTNetKerasModel" "_build_train" evs))
                   = if is_ok (returned L e) then [Some (VBool u)] else []
            else
              calls "MTNetKerasModel" "_get_attributes" evs = []
              /\ calls "MTNetKerasModel" "_build_train" evs = []).
Proof.
  intros L [Is H T] u. split.
  - intros h fd u1 d1 u2 d2 met lr a evs. subst evs a. run_construct.
    outcome_cases; observe; eexists; (split; [reflexivity|]); answers;
      reflexivity.
  - intros h fd met a evs. subst evs a. run_construct.
    cbn [MTNet.uncertainty MTNet.horizon MTNet.feature_dim MTNet.metric].
    outcome_cases; observe; eexists; (split; [reflexivity|]); answers;
      try (split; reflexivity);
      (eexists; split; [reflexivity|]; split; [reflexivity|]); answers;
      reflexivity.
Qed.

(** C6.  [Forecaster] has the abstract method [_build], so instantiating
    it raises [TypeError] and leaves the state as it was.  The two
    subclasses define [_build], have no abstract method left, and their
    instantiation allocates an instance and runs their [__init__]. *)
Theorem Forecaster_is_abstract_and_leaves_are_concrete :
  forall (L : library),
    abstractmethods L Forecaster = ["_build"]
    /\ (forall s args,
          construct L Forecaster args s
          = (s, Raise (TypeError "Can't instantiate abstract class")))
    /\ (abstractmethods L LSTMForecaster = []
        /\ find_method L (mro LSTMForecaster) "_build"
           = Some (LSTMForecaster, false)
        /\ forall s a,
             construct L LSTMForecaster (LSTMArgs a) s
             = (let* self := alloc_inst LSTMForecaster in
                do* LSTMForecaster___init__ L self a in
                ret self) s)
    /\ (abstractmethods L MTNetForecaster = []
        /\ find_method L (mro MTNetForecaster) "_build"
           = Some (MTNetForecaster, false)
        /\ forall s a,
             construct L MTNetForecaster (MTNetArgs a) s
             = (let* self := alloc_inst MTNetForecaster in
                do* MTNetForecaster___init__ L self a in
                ret self) s).
Proof.
  intros L. split; [apply abstractmethods_Forecaster|]. split; [|split].
  - intros s args. unfold construct.
    now rewrite abstractmethods_Forecaster.
  - split; [apply abstractmethods_LSTMForecaster|]. split; [reflexivity|].
    intros [Is H T] a. unfold construct.
    rewrite abstractmethods_LSTMForecaster. rewrite !bind_alloc_inst.
    unfold call___init__. rewrite bind_assoc, bind_class_of. reflexivity.
  - split; [apply abstractmethods_MTNetForecaster|]. split; [reflexivity|].
    intros [Is H T] a. unfold construct.
    rewrite abstractmethods_MTNetForecaster. rewrite !bind_alloc_inst.
    unfold call___init__. rewrite bind_assoc, bind_class_of. reflexivity.
Qed.

(** C7.  A construction, of any class with any arguments, successful or
    not, leaves every instance that existed before as it was; the heap it
    leaves is the old heap extended by fresh objects, changed by the writes
    of the library calls and by nothing else.  So after a first forecaster
    is constructed, constructing a second one leaves the attributes of the
    first unchanged. *)
Theorem construction_touches_only_the_new_instance :
  forall (L : library) (s : state) (k : klass) (args : ctor_args),
    let s' := fst (construct L k args s) in
    take (length (insts s)) (insts s') = insts s
    /\ (exists fresh,
          heap s'
          = apply_writes
              (library_writes L (events_of (construct L k args) s))
              (heap s ++ fresh))
    /\ forall (k2 : klass) (args2 : ctor_args),
         match snd (construct L k args s) with
         | Ok self1 =>
             insts (fst (construct L k2 args2 s')) !! self1
             = insts s' !! self1
         | Raise _ => True
         end.
Proof.
  intros L [Is H T] k args s'. subst s'.
  destruct (construct_shape L Is H T k args) as (new & fresh & Hi & Hh & Hr).
  cbn [insts heap]. split; [|split].
  - rewrite Hi. now rewrite take_app_length.
  - now exists fresh.
  - intros k2 args2.
    destruct (snd (construct L k args (mk_state Is H T))) as [self1|e];
      [|exact I].
    destruct Hr as [-> Hlen].
    destruct (fst (construct L k args (mk_state Is H T))) as [Is1 H1 T1].
    cbn [insts] in Hi.
    destruct (construct_shape L Is1 H1 T1 k2 args2) as (new2 & _ & Hi2 & _).
    rewrite Hi2. cbn [insts]. apply lookup_app_l.
    rewrite Hi, length_app. lia.
Qed.

(** C8.  For every horizon [h], [MTNetForecaster] instantiates
    [MTNetKerasModel] with [future_seq_len = None]: the dictionary that
    [__init__] stores in [model_config] holds the horizon under the key
    [output_dim] and has no key [horizon], which is the key [_build] asks
    for.  The dictionary is the one that [_get_attributes] receives as
    [config], when the instantiation returned. *)
Theorem MTNet_future_seq_len_is_None :
  forall (L : library) (s : state) (a : MTNet.args),
    let evs := events_of (construct L MTNetForecaster (MTNetArgs a)) s in
    map kwargs_of (news "MTNetKerasModel" evs)
      = [[("check_optional_config", VBool false); ("future_seq_len", VNone)]]
    /\ (exists attrs,
          MTNetForecaster___init__ L (length (insts s)) a
            (mk_state (insts s ++ [mk_instance MTNetForecaster []])
               (heap s) (trace s))
          = Forecaster___init__ L (length (insts s))
              (mk_state (insts s ++ [mk_instance MTNetForecaster attrs])
                 (heap s ++ [OList [MTNet.metric a];
                             ODict [("feature_num", MTNet.feature_dim a);
                                    ("output_dim", MTNet.horizon a);
                                    ("metrics", VObj (length (heap s)))]])
                 (trace s))
          /\ dict_get "model_config" attrs
             = Some (VObj (length (heap s) + 1)))
    /\ exists n,
         news "MTNetKerasModel" evs = [n]
         /\ if is_ok (returned L n)
            then
              exists l kw h,
                calls "MTNetKerasModel" "_get_attributes" evs
                = [ECall "MTNetKerasModel" "_get_attributes" l [] kw h]
                /\ exists lc,
                     dict_get "config" kw = Some (VObj lc)
                     /\ dict_get "output_dim" (dict_at h lc)
                        = Some (MTNet.horizon a)
                     /\ dict_get "horizon" (dict_at h lc) = None
            else calls "MTNetKerasModel" "_get_attributes" evs = [].
Proof.
  intros L [Is H T] a evs. subst evs. cbn [insts heap trace].
  split; [|split].
  - run_construct. outcome_cases; observe; reflexivity.
  - eexists. split; [apply MTNet_init_prepares | reflexivity].
  - run_construct.
    outcome_cases; observe; eexists; (split; [reflexivity|]); answers;
      try reflexivity;
      (do 3 eexists; split; [reflexivity|];
       exists (length H + 1); split; [reflexivity|];
       unfold dict_at; rewrite lookup_app_add; split; reflexivity).
Qed.

(** C9, amended.  After a successful construction of an
    [MTNetForecaster] in which the base initializer left the attribute
    [internal] as it found it, [internal] refers to the [MTNetKerasModel]
    instance that [_build] created (not [None]), that instance is still
    in the heap, and [preprocess_input(x)] is the call of
    [_gen_hist_inputs(x)] on it. *)
Theorem MTNet_internal_is_the_built_model :
  forall (L : library) (s : state) (a : MTNet.args) (s' : state) (self : loc),
    construct L MTNetForecaster (MTNetArgs a) s = (s', Ok self) ->
    base_init_leaves L "internal"
      (events_of (construct L MTNetForecaster (MTNetArgs a)) s) ->
    exists i l kw h attrs,
      insts s' !! self = Some i
      /\ dict_get "internal" (i_dict i) = Some (VObj l)
      /\ news "MTNetKerasModel"
           (events_of (construct L MTNetForecaster (MTNetArgs a)) s)
         = [ENew "MTNetKerasModel" kw h]
      /\ returned L (ENew "MTNetKerasModel" kw h) = Ok (VObj l)
      /\ heap s !! l = None
      /\ heap s' !! l = Some (OInst "MTNetKerasModel" attrs)
      /\ forall x,
           MTNetForecaster_preprocess_input L self x s'
           = invoke L (BLib "MTNetKerasModel" "_gen_hist_inputs" l) [x] [] s'.
Proof.
  intros L [Is H T] a s' self. unfold base_init_leaves.
  run_construct. outcome_cases; try discriminate.
  intros E. injection E as <- <-. observe.
  intros Hleave. apply Forall_inv in Hleave.
  cbn [attrs_before attrs_after dict_get String.eqb Ascii.eqb Bool.eqb]
    in Hleave.
  match goal with
  | |- context [apply_writes ?w3 (apply_writes ?w2 (apply_writes ?w1 ?h1))] =>
      destruct (apply_writes_inst w1 h1 (length H + 2) "MTNetKerasModel" _
                  (lookup_app_add H _ 2)) as [b1 H1];
      destruct (apply_writes_inst w2 _ _ _ _ H1) as [b2 H2];
      destruct (apply_writes_inst w3 _ _ _ _ H2) as [b3 H3]
  end.
  eexists. exists (length H + 2). do 3 eexists.
  split; [apply lookup_snoc|]. cbn [i_dict].
  split; [exact Hleave|].
  split; [reflexivity|].
  split; [answers; rewrite length_app; reflexivity|].
  split; [apply lookup_ge_None_2; lia|].
  split; [exact H3|].
  intros x. unfold MTNetForecaster_preprocess_input.
  rewrite bind_getattr. rewrite Hleave.
  erewrite bind_get_method_lib by exact H3.
  reflexivity.
Qed.

(** C9 at the stub library, with the default arguments. *)
Lemma MTNet_internal_witness :
  exists i l kw h attrs,
    insts stub_MTNet_state !! 0 = Some i
    /\ dict_get "internal" (i_dict i) = Some (VObj l)
    /\ news "MTNetKerasModel"
         (events_of
            (construct stub_library MTNetForecaster (MTNetArgs MTNet.defaults))
            empty_state)
       = [ENew "MTNetKerasModel" kw h]
    /\ returned stub_library (ENew "MTNetKerasModel" kw h) = Ok (VObj l)
    /\ heap empty_state !! l = None
    /\ heap stub_MTNet_state !! l = Some (OInst "MTNetKerasModel" attrs)
    /\ forall x,
         MTNetForecaster_preprocess_input stub_library 0 x stub_MTNet_state
         = invoke stub_library (BLib "MTNetKerasModel" "_gen_hist_inputs" l)
             [x] [] stub_MTNet_state.
Proof.
  apply (MTNet_internal_is_the_built_model stub_library empty_state
           MTNet.defaults stub_MTNet_state 0).
  - vm_compute. reflexivity.
  - unfold base_init_leaves. vm_compute. repeat constructor.
Defined.

(** C9 as it was stated fails when the base initializer uses the name
    [internal] itself: with [rebinding_library] the construction returns
    the new instance, its [internal] is [None], and [preprocess_input]
    raises. *)
Lemma MTNet_internal_may_be_rebound_by_the_base_initializer :
  exists s',
    construct rebinding_library MTNetForecaster (MTNetArgs MTNet.defaults)
      empty_state = (s', Ok 0)
    /\ (exists i,
          insts s' !! 0 = Some i
          /\ dict_get "internal" (i_dict i) = Some VNone)
    /\ snd (MTNetForecaster_preprocess_input rebinding_library 0 (VInt 7) s')
       = Raise (AttributeError "_gen_hist_inputs").
Proof.
  eexists. split; [vm_compute; reflexivity|]. split.
  - eexists. split; reflexivity.
  - reflexivity.
Qed.

(** C10.  [LSTMForecaster.__init__] keeps [feature_dim] as an attribute
    and out of [model_config].  [_build] instantiates the internal model,
    then binds its attribute [feature_num] to [feature_dim], then calls its
    [_build] once: in the heap that the call sees, the receiver is the new
    instance and its [feature_num] is the [feature_dim] argument, and the
    keyword arguments carry neither name.  When the instantiation raises,
    there is no instance and no call. *)
Theorem LSTM_feature_dim_set_on_internal :
  forall (L : library) (Is : list instance) (H : list pyobj) (T : list event)
         (a : LSTM.args),
    (exists attrs cfg,
       LSTMForecaster___init__ L (length Is) a
         (mk_state (Is ++ [mk_instance LSTMForecaster []]) H T)
       = Forecaster___init__ L (length Is)
           (mk_state (Is ++ [mk_instance LSTMForecaster attrs])
              (H ++ [ODict cfg]) T)
       /\ dict_get "feature_dim" attrs = Some (LSTM.feature_dim a)
       /\ dict_get "model_config" attrs = Some (VObj (length H))
       /\ dict_keys cfg
          = ["lr"; "lstm_1_units"; "dropout_1"; "lstm_2_units"; "dropout_2";
             "metric"])
    /\ exists new_kw hn tl,
         events_of (construct L LSTMForecaster (LSTMArgs a)) (mk_state Is H T)
         = ENew "LSTMKerasModel" new_kw hn :: tl
         /\ dict_get "feature_num" new_kw = None
         /\ match returned L (ENew "LSTMKerasModel" new_kw hn) with
            | Ok v =>
                exists l kw h rest attrs,
                  v = VObj l
                  /\ hn !! l = None
                  /\ tl = ECall "LSTMKerasModel" "_build" l [] kw h :: rest
                  /\ calls "LSTMKerasModel" "_build" rest = []
                  /\ h !! l = Some (OInst "LSTMKerasModel" attrs)
                  /\ dict_get "feature_num" attrs = Some (LSTM.feature_dim a)
                  /\ dict_get "feature_num" kw = None
                  /\ dict_get "feature_dim" kw = None
            | Raise _ => tl = []
            end.
Proof.
  intros L Is H T a. split.
  - do 2 eexists. split; [apply LSTM_init_prepares|]. repeat split.
  - run_construct.
    outcome_cases; observe; do 3 eexists; (split; [reflexivity|]);
      (split; [reflexivity|]); answers; try reflexivity;
      (do 5 eexists; split; [reflexivity|];
       split; [apply lookup_ge_None_2; lia|];
       split; [rewrite length_app; cbn [length]; reflexivity|];
       split; [reflexivity|];
       split; [rewrite length_app; cbn [length];
               rewrite lookup_app_add; reflexivity|];
       split; [apply dict_get_set_same|]; split; reflexivity).
Qed.

(** * Further properties *)

(** X1.  Constructing a forecaster raises only what the library raised:
    the construction returns the new instance when every interaction with
    the library returned, and otherwise raises the exception of the last
    interaction in the trace, every earlier one having returned.  The
    instantiation of the internal model class is the first of these
    interactions. *)
Theorem construction_raises_what_the_library_raised :
  forall (L : library) (s : state),
    (forall a : LSTM.args,
       let evs := events_of (construct L LSTMForecaster (LSTMArgs a)) s in
       match snd (construct L LSTMForecaster (LSTMArgs a) s) with
       | Ok self =>
           self = length (insts s)
           /\ forallb (returns_normally L) evs = true
       | Raise x =>
           exists pre e,
             evs = pre ++ [e]
             /\ raised L e = Some x
             /\ forallb (returns_normally L) pre = true
       end)
    /\ (forall a : MTNet.args,
       let evs := events_of (construct L MTNetForecaster (MTNetArgs a)) s in
       match snd (construct L MTNetForecaster (MTNetArgs a) s) with
       | Ok self =>
           self = length (insts s)
           /\ forallb (returns_normally L) evs = true
       | Raise x =>
           exists pre e,
             evs = pre ++ [e]
             /\ raised L e = Some x
             /\ forallb (returns_normally L) pre = true
       end).
Proof.
  intros L [Is H T]. split; intros a evs; subst evs.
  - run_construct. outcome_cases; observe.
    + split; [reflexivity|]. answers. reflexivity.
    + eexists [_; _], _. split; [reflexivity|]. answers.
      split; reflexivity.
    + eexists [_], _. split; [reflexivity|]. answers. split; reflexivity.
    + eexists [], _. split; [reflexivity|]. answers. split; reflexivity.
  - run_construct. outcome_cases; observe;
      first
        [ split; [reflexivity|]; answers; reflexivity
        | eexists [_; _; _], _; split; [reflexivity|]; answers;
          split; reflexivity
        | eexists [_; _], _; split; [reflexivity|]; answers;
          split; reflexivity
        | eexists [_], _; split; [reflexivity|]; answers; split; reflexivity
        | eexists [], _; split; [reflexivity|]; answers; split; reflexivity ].
Qed.

(** X2.  The library is used in a fixed order, each step at most once:
    instantiate the internal model, [_build] (LSTM) or [_get_attributes]
    then [_build_train] (MTNet), then the base initializer.  The trace of a
    construction is a prefix of that sequence: the whole of it when the
    construction succeeds, never empty, and the instantiation alone
    exactly when the instantiation raised. *)
Theorem library_is_used_in_a_fixed_order :
  forall (L : library) (s : state),
    (forall a : LSTM.args,
       let evs := events_of (construct L LSTMForecaster (LSTMArgs a)) s in
       exists n,
         map label_of evs
         = take n [LNew "LSTMKerasModel"; LCall "LSTMKerasModel" "_build";
                   LSuperInit]
         /\ match snd (construct L LSTMForecaster (LSTMArgs a) s) with
            | Ok _ => n = 3
            | Raise _ => 1 <= n <= 3
            end
         /\ (n = 1 <-> forallb (returns_normally L) (take 1 evs) = false))
    /\ (forall a : MTNet.args,
       let evs := events_of (construct L MTNetForecaster (MTNetArgs a)) s in
       exists n,
         map label_of evs
         = take n [LNew "MTNetKerasModel";
                   LCall "MTNetKerasModel" "_get_attributes";
                   LCall "MTNetKerasModel" "_build_train"; LSuperInit]
         /\ match snd (construct L MTNetForecaster (MTNetArgs a) s) with
            | Ok _ => n = 4
            | Raise _ => 1 <= n <= 4
            end
         /\ (n = 1 <-> forallb (returns_normally L) (take 1 evs) = false)).
Proof.
  intros L [Is H T]. split; intros a evs; subst evs.
  - run_construct. outcome_cases; observe; cbn [take]; answers;
      [exists 3 | exists 3 | exists 2 | exists 1];
      (split; [reflexivity|]); (split; [lia|]);
      split; first [discriminate | reflexivity | lia].
  - run_construct. outcome_cases; observe; cbn [take]; answers;
      first
        [ exists 4; split; [reflexivity|]
        | exists 3; split; [reflexivity|]
        | exists 2; split; [reflexivity|]
        | exists 1; split; [reflexivity|] ];
      (split; [lia|]);
      split; first [discriminate | reflexivity | lia].
Qed.

(** X3.  [MTNetForecaster._build] passes [epochs = 1] and, as [metrics],
    the list object that [model_config] holds under the key [metrics] (the
    one-element list of the metric).  For [_build_train] it reads the key
    again, from the dictionary as [_get_attributes] left it: it passes what
    the dictionary then holds, [None] if the key is gone.  [_build_train]
    is not called exactly when the construction has already failed. *)
Theorem MTNet_metrics_are_read_from_model_config :
  forall (L : library) (Is : list instance) (H : list pyobj) (T : list event)
         (a : MTNet.args),
    let evs :=
      events_of (construct L MTNetForecaster (MTNetArgs a)) (mk_state Is H T) in
    (exists n,
       news "MTNetKerasModel" evs = [n]
       /\ if is_ok (returned L n)
          then
            exists kw h,
              calls "MTNetKerasModel" "_get_attributes" evs
              = [ECall "MTNetKerasModel" "_get_attributes" (length H + 2) []
                   kw h]
              /\ dict_get "epochs" kw = Some (VInt 1)
              /\ dict_get "metrics" kw = Some (VObj (length H))
              /\ dict_get "metrics" (dict_at h (length H + 1))
                 = Some (VObj (length H))
              /\ h !! length H = Some (OList [MTNet.metric a])
          else calls "MTNetKerasModel" "_get_attributes" evs = [])
    /\ match calls "MTNetKerasModel" "_build_train" evs with
       | [] =>
           is_ok (snd (construct L MTNetForecaster (MTNetArgs a)
                         (mk_state Is H T))) = false
       | [e] =>
           exists recv h,
             e = ECall "MTNetKerasModel" "_build_train" recv []
                   [("mc", MTNet.uncertainty a);
                    ("metrics",
                     default VNone
                       (dict_get "metrics" (dict_at h (length H + 1))))]
                   h
       | _ :: _ :: _ => False
       end.
Proof.
  intros L Is H T a evs. subst evs. run_construct. split.
  - outcome_cases; observe; eexists; (split; [reflexivity|]); answers;
      try reflexivity;
      (do 2 eexists; split; [reflexivity|];
       split; [reflexivity|]; split; [reflexivity|];
       split; [unfold dict_at; rewrite lookup_app_add; reflexivity
              | now apply list_lookup_middle]).
  - outcome_cases; observe; try reflexivity; do 2 eexists; reflexivity.
Qed.

(** ** Methods run on an arbitrary instance *)

Section AnyInstance.

Variable L : library.

Lemma bind_getattr_at {B} (f : pyval -> M B) Is h t self i n v :
  Is !! self = Some i ->
  dict_get n (i_dict i) = Some v ->
  bind (getattr self n) f (mk_state Is h t) = f v (mk_state Is h t).
Proof.
  intros Hi Hv. unfold bind, getattr; cbn [insts]. now rewrite Hi, Hv.
Qed.

Lemma bind_setattr_at {B} (f : unit -> M B) Is h t self i n v :
  Is !! self = Some i ->
  bind (setattr self n v) f (mk_state Is h t)
  = f tt (mk_state
            (<[self := mk_instance (i_class i) (dict_set n v (i_dict i))]> Is)
            h t).
Proof. intros Hi. unfold bind, setattr; cbn [insts heap trace]. now rewrite Hi. Qed.

Lemma duplicate_mc (u : pyval) (cfg : dict) :
  existsb (fun k => dict_has k [("mc", u)]) (dict_keys cfg)
  = dict_has "mc" cfg.
Proof.
  induction cfg as [|[k v] cfg IH]; [reflexivity|].
  cbn [dict_keys map fst existsb]. fold (dict_keys cfg). rewrite IH.
  unfold dict_has. cbn [dict_get]. rewrite (String.eqb_sym "mc" k).
  destruct (String.eqb k "mc"); reflexivity.
Qed.

Lemma LSTM_build_run Is h t self i coc hz fd u lc cfg :
  Is !! self = Some i ->
  dict_get "check_optional_config" (i_dict i) = Some coc ->
  dict_get "horizon" (i_dict i) = Some hz ->
  dict_get "feature_dim" (i_dict i) = Some fd ->
  dict_get "uncertainty" (i_dict i) = Some u ->
  dict_get "model_config" (i_dict i) = Some (VObj lc) ->
  h !! lc = Some (ODict cfg) ->
  let new_kw := [("check_optional_config", coc); ("future_seq_len", hz)] in
  LSTMForecaster__build L self (mk_state Is h t)
  = match lib_new L "LSTMKerasModel" new_kw h with
    | Raise e =>
        (mk_state Is h (t ++ [ENew "LSTMKerasModel" new_kw h]), Raise e)
    | Ok ia =>
        let s1 :=
          mk_state Is
            (h ++ [OInst "LSTMKerasModel" (dict_set "feature_num" fd ia)])
            (t ++ [ENew "LSTMKerasModel" new_kw h]) in
        if dict_has "mc" cfg
        then (s1, Raise (TypeError "got multiple values for keyword argument"))
        else
          invoke L (BLib "LSTMKerasModel" "_build" (length h)) []
            (("mc", u) :: cfg) s1
    end.
Proof.
  intros Hi Hcoc Hhz Hfd Hu Hcfg Hlc. cbv zeta. unfold LSTMForecaster__build.
  rewrite (bind_getattr_at _ _ _ _ _ _ _ _ Hi Hcoc).
  rewrite (bind_getattr_at _ _ _ _ _ _ _ _ Hi Hhz).
  rewrite bind_new_lib. destruct (lib_new L _ _ _) as [ia|e]; [|reflexivity].
  rewrite (bind_getattr_at _ _ _ _ _ _ _ _ Hi Hfd).
  erewrite bind_store_attr_obj by apply lookup_snoc. rewrite insert_snoc.
  erewrite bind_get_method_lib by apply lookup_snoc.
  rewrite (bind_getattr_at _ _ _ _ _ _ _ _ Hi Hu).
  rewrite (bind_getattr_at _ _ _ _ _ _ _ _ Hi Hcfg).
  erewrite bind_unpack_kwargs by (apply lookup_app_l_Some; exact Hlc).
  unfold join_kwargs. rewrite duplicate_mc.
  destruct (dict_has "mc" cfg); reflexivity.
Qed.

Lemma MTNet_build_run Is h t self i coc u lc cfg :
  Is !! self = Some i ->
  dict_get "check_optional_config" (i_dict i) = Some coc ->
  dict_get "mc" (i_dict i) = Some u ->
  dict_get "model_config" (i_dict i) = Some (VObj lc) ->
  h !! lc = Some (ODict cfg) ->
  let new_kw :=
    [("check_optional_config", coc);
     ("future_seq_len", default VNone (dict_get "horizon" cfg))] in
  MTNetForecaster__build L self (mk_state Is h t)
  = match lib_new L "MTNetKerasModel" new_kw h with
    | Raise e =>
        (mk_state Is h (t ++ [ENew "MTNetKerasModel" new_kw h]), Raise e)
    | Ok ia =>
        let Is1 :=
          <[self := mk_instance (i_class i)
                      (dict_set "internal" (VObj (length h)) (i_dict i))]> Is in
        let h1 := h ++ [OInst "MTNetKerasModel" ia] in
        let c1 :=
          ECall "MTNetKerasModel" "_get_attributes" (length h) []
            [("mc", u); ("metrics", default VNone (dict_get "metrics" cfg));
             ("epochs", VInt 1); ("config", VObj lc)] h1 in
        let s1 :=
          mk_state Is1 (apply_writes (writes_of L c1) h1)
            (t ++ [ENew "MTNetKerasModel" new_kw h; c1]) in
        match returned L c1 with
        | Raise e => (s1, Raise e)
        | Ok _ =>
            invoke L (BLib "MTNetKerasModel" "_build_train" (length h)) []
              [("mc", u);
               ("metrics",
                default VNone (dict_get "metrics" (dict_at (heap s1) lc)))]
              s1
        end
    end.
Proof.
  intros Hi Hcoc Hu Hcfg Hlc. cbv zeta. cbn [returned writes_of heap].
  assert (Hlt : self < length Is) by (now apply lookup_lt_Some in Hi).
  unfold MTNetForecaster__build.
  rewrite (bind_getattr_at _ _ _ _ _ _ _ _ Hi Hcoc).
  rewrite (bind_getattr_at _ _ _ _ _ _ _ _ Hi Hcfg).
  erewrite bind_get_method_get by exact Hlc.
  erewrite bind_dict_get by exact Hlc.
  rewrite bind_new_lib. destruct (lib_new L _ _ _) as [ia|e]; [|reflexivity].
  rewrite (bind_setattr_at _ _ _ _ _ _ _ _ Hi).
  set (i' := mk_instance (i_class i)
               (dict_set "internal" (VObj (length h)) (i_dict i))).
  assert (Hi' : <[self := i']> Is !! self = Some i')
    by (now apply list_lookup_insert_eq).
  assert (Hint : dict_get "internal" (i_dict i') = Some (VObj (length h)))
    by apply dict_get_set_same.
  assert (Hu' : dict_get "mc" (i_dict i') = Some u)
    by (cbn [i' i_dict]; now rewrite dict_get_set_other).
  assert (Hcfg' : dict_get "model_config" (i_dict i') = Some (VObj lc))
    by (cbn [i' i_dict]; now rewrite dict_get_set_other).
  rewrite (bind_getattr_at _ _ _ _ _ _ _ _ Hi' Hint).
  erewrite bind_get_method_lib by apply lookup_snoc.
  rewrite (bind_getattr_at _ _ _ _ _ _ _ _ Hi' Hu').
  rewrite (bind_getattr_at _ _ _ _ _ _ _ _ Hi' Hcfg').
  erewrite bind_get_method_get by (apply lookup_app_l_Some; exact Hlc).
  erewrite bind_dict_get by (apply lookup_app_l_Some; exact Hlc).
  rewrite (bind_getattr_at _ _ _ _ _ _ _ _ Hi' Hcfg').
  rewrite bind_invoke_lib. rewrite <- app_assoc. cbn [app].
  match goal with
  | |- context [apply_writes ?ws ?h1] =>
      destruct (apply_writes_inst ws h1 (length h) "MTNetKerasModel" _
                  (lookup_snoc _ _)) as [a2 Hi2];
      destruct (apply_writes_dict ws h1 lc cfg
                  (lookup_app_l_Some _ _ _ _ Hlc)) as [d2 Hc2]
  end.
  destruct (r_out _) as [v|e]; [|reflexivity].
  rewrite (bind_getattr_at _ _ _ _ _ _ _ _ Hi' Hint).
  erewrite bind_get_method_lib by exact Hi2.
  rewrite (bind_getattr_at _ _ _ _ _ _ _ _ Hi' Hu').
  rewrite (bind_getattr_at _ _ _ _ _ _ _ _ Hi' Hcfg').
  erewrite bind_get_method_get by exact Hc2.
  erewrite bind_dict_get by exact Hc2.
  unfold dict_at. rewrite Hc2. reflexivity.
Qed.

End AnyInstance.

(** X4.  [LSTMForecaster._build] on any instance reads the attributes as
    they are when it is called: with [model_config] a dictionary that has
    no key [mc], it instantiates the internal model from
    [check_optional_config] and [horizon], sets its [feature_num] to
    [feature_dim], calls its [_build] with [mc = uncertainty] followed by
    the items of [model_config], and returns or raises what that call
    does; when the instantiation raises, it raises the same and makes no
    call.  It stores nothing on the forecaster. *)
Theorem LSTM_build_reads_the_current_attributes :
  forall (L : library) (Is : list instance) (h : list pyobj) (t : list event)
         (self : loc) (i : instance) (coc hz fd u : pyval) (lc : loc)
         (cfg : dict),
    Is !! self = Some i ->
    dict_get "check_optional_config" (i_dict i) = Some coc ->
    dict_get "horizon" (i_dict i) = Some hz ->
    dict_get "feature_dim" (i_dict i) = Some fd ->
    dict_get "uncertainty" (i_dict i) = Some u ->
    dict_get "model_config" (i_dict i) = Some (VObj lc) ->
    h !! lc = Some (ODict cfg) ->
    dict_has "mc" cfg = false ->
    let out := LSTMForecaster__build L self (mk_state Is h t) in
    let evs := events_of (LSTMForecaster__build L self) (mk_state Is h t) in
    let new_kw := [("check_optional_config", coc); ("future_seq_len", hz)] in
    let new := ENew "LSTMKerasModel" new_kw h in
    insts (fst out) = Is
    /\ match lib_new L "LSTMKerasModel" new_kw h with
       | Ok ia =>
           let call :=
             ECall "LSTMKerasModel" "_build" (length h) [] (("mc", u) :: cfg)
               (h ++ [OInst "LSTMKerasModel" (dict_set "feature_num" fd ia)])
           in
           evs = [new; call] /\ snd out = returned L call
       | Raise x => evs = [new] /\ snd out = Raise x
       end.
Proof.
  intros L Is h t self i coc hz fd u lc cfg Hi Hcoc Hhz Hfd Hu Hcfg Hlc Hmc.
  cbv zeta. unfold events_of.
  rewrite (LSTM_build_run L Is h t self i coc hz fd u lc cfg) by assumption.
  cbv zeta. destruct (lib_new L _ _ _) as [ia|x].
  - rewrite Hmc, run_invoke_lib. cbn [fst snd insts trace].
    rewrite <- app_assoc, drop_app_length. repeat split.
  - cbn [fst snd insts trace]. rewrite drop_app_length. repeat split.
Qed.

(** X4 at the stub library. *)
Lemma LSTM_build_witness :
  let s :=
    mk_state
      [mk_instance LSTMForecaster
         [("check_optional_config", VBool true); ("horizon", VInt 2);
          ("feature_dim", VInt 3); ("uncertainty", VBool true);
          ("model_config", VObj 0)]]
      [ODict [("metric", VStr "mae")]] [] in
  let out := LSTMForecaster__build stub_library 0 s in
  let new_kw :=
    [("check_optional_config", VBool true); ("future_seq_len", VInt 2)] in
  let call :=
    ECall "LSTMKerasModel" "_build" 1 []
      [("mc", VBool true); ("metric", VStr "mae")]
      [ODict [("metric", VStr "mae")];
       OInst "LSTMKerasModel"
         [("check_optional_config", VBool true); ("future_seq_len", VInt 2);
          ("feature_num", VInt 3)]] in
  insts (fst out) = insts s
  /\ events_of (LSTMForecaster__build stub_library 0) s
     = [ENew "LSTMKerasModel" new_kw [ODict [("metric", VStr "mae")]]; call]
  /\ snd out = returned stub_library call.
Proof.
  apply (LSTM_build_reads_the_current_attributes stub_library
           [mk_instance LSTMForecaster
              [("check_optional_config", VBool true); ("horizon", VInt 2);
               ("feature_dim", VInt 3); ("uncertainty", VBool true);
               ("model_config", VObj 0)]]
           [ODict [("metric", VStr "mae")]] [] 0
           (mk_instance LSTMForecaster
              [("check_optional_config", VBool true); ("horizon", VInt 2);
               ("feature_dim", VInt 3); ("uncertainty", VBool true);
               ("model_config", VObj 0)])
           (VBool true) (VInt 2) (VInt 3) (VBool true) 0
           [("metric", VStr "mae")]); reflexivity.
Defined.

(** X5.  When [model_config] has a key [mc], [LSTMForecaster._build]
    makes no call to the internal model's [_build]: once the internal
    model is instantiated it raises [TypeError] (the keyword is given
    twice); when the instantiation itself raises, that exception comes
    out. *)
Theorem LSTM_build_rejects_mc_in_model_config :
  forall (L : library) (Is : list instance) (h : list pyobj) (t : list event)
         (self : loc) (i : instance) (coc hz fd u : pyval) (lc : loc)
         (cfg : dict),
    Is !! self = Some i ->
    dict_get "check_optional_config" (i_dict i) = Some coc ->
    dict_get "horizon" (i_dict i) = Some hz ->
    dict_get "feature_dim" (i_dict i) = Some fd ->
    dict_get "uncertainty" (i_dict i) = Some u ->
    dict_get "model_config" (i_dict i) = Some (VObj lc) ->
    h !! lc = Some (ODict cfg) ->
    dict_has "mc" cfg = true ->
    let out := LSTMForecaster__build L self (mk_state Is h t) in
    let new :=
      ENew "LSTMKerasModel"
        [("check_optional_config", coc); ("future_seq_len", hz)] h in
    snd out
    = match returned L new with
      | Ok _ => Raise (TypeError "got multiple values for keyword argument")
      | Raise x => Raise x
      end
    /\ insts (fst out) = Is
    /\ events_of (LSTMForecaster__build L self) (mk_state Is h t) = [new].
Proof.
  intros L Is h t self i coc hz fd u lc cfg Hi Hcoc Hhz Hfd Hu Hcfg Hlc Hmc.
  cbv zeta. unfold events_of.
  rewrite (LSTM_build_run L Is h t self i coc hz fd u lc cfg) by assumption.
  cbv zeta. cbn [returned]. destruct (lib_new L _ _ _) as [ia|x].
  - rewrite Hmc. cbn [fst snd insts trace]. rewrite drop_app_length.
    repeat split.
  - cbn [fst snd insts trace]. rewrite drop_app_length. repeat split.
Qed.

(** X5 at the stub library. *)
Lemma LSTM_build_rejects_mc_witness :
  let s :=
    mk_state
      [mk_instance LSTMForecaster
         [("check_optional_config", VBool false); ("horizon", VInt 1);
          ("feature_dim", VInt 1); ("uncertainty", VBool false);
          ("model_config", VObj 0)]]
      [ODict [("lr", VInt 1); ("mc", VBool true)]] [] in
  let out := LSTMForecaster__build stub_library 0 s in
  snd out = Raise (TypeError "got multiple values for keyword argument")
  /\ insts (fst out) = insts s
  /\ events_of (LSTMForecaster__build stub_library 0) s
     = [ENew "LSTMKerasModel"
          [("check_optional_config", VBool false); ("future_seq_len", VInt 1)]
          [ODict [("lr", VInt 1); ("mc", VBool true)]]].
Proof.
  apply (LSTM_build_rejects_mc_in_model_config stub_library
           [mk_instance LSTMForecaster
              [("check_optional_config", VBool false); ("horizon", VInt 1);
               ("feature_dim", VInt 1); ("uncertainty", VBool false);
               ("model_config", VObj 0)]]
           [ODict [("lr", VInt 1); ("mc", VBool true)]] [] 0
           (mk_instance LSTMForecaster
              [("check_optional_config", VBool false); ("horizon", VInt 1);
               ("feature_dim", VInt 1); ("uncertainty", VBool false);
               ("model_config", VObj 0)])
           (VBool false) (VInt 1) (VInt 1) (VBool false) 0
           [("lr", VInt 1); ("mc", VBool true)]); reflexivity.
Defined.

(** X6.  [MTNetForecaster._build] on any instance, whatever the keys of
    [model_config]: [future_seq_len] is the value under [horizon] and
    [metrics] the value under [metrics], each [None] when the key is
    missing; no key is required.  The result of [_build], value or
    exception, is that of its last interaction with the library. *)
Theorem MTNet_build_tolerates_missing_keys :
  forall (L : library) (Is : list instance) (h : list pyobj) (t : list event)
         (self : loc) (i : instance) (coc u : pyval) (lc : loc) (cfg : dict),
    Is !! self = Some i ->
    dict_get "check_optional_config" (i_dict i) = Some coc ->
    dict_get "mc" (i_dict i) = Some u ->
    dict_get "model_config" (i_dict i) = Some (VObj lc) ->
    h !! lc = Some (ODict cfg) ->
    let out := MTNetForecaster__build L self (mk_state Is h t) in
    let evs := events_of (MTNetForecaster__build L self) (mk_state Is h t) in
    let new_kw :=
      [("check_optional_config", coc);
       ("future_seq_len", default VNone (dict_get "horizon" cfg))] in
    map kwargs_of (news "MTNetKerasModel" evs) = [new_kw]
    /\ map kwargs_of (calls "MTNetKerasModel" "_get_attributes" evs)
       = (if is_ok (returned L (ENew "MTNetKerasModel" new_kw h))
          then
            [[("mc", u); ("metrics", default VNone (dict_get "metrics" cfg));
              ("epochs", VInt 1); ("config", VObj lc)]]
          else [])
    /\ exists pre e, evs = pre ++ [e] /\ snd out = returned L e.
Proof.
  intros L Is h t self i coc u lc cfg Hi Hcoc Hu Hcfg Hlc.
  cbv zeta. unfold events_of.
  rewrite (MTNet_build_run L Is h t self i coc u lc cfg) by assumption.
  cbv zeta. cbn [returned writes_of heap].
  destruct (lib_new L _ _ _) as [ia|x] eqn:E0.
  - destruct (r_out _) as [v|e] eqn:E1.
    + rewrite run_invoke_lib. observe. rewrite <- app_assoc, drop_app_length.
      observe. split; [reflexivity|]. split; [reflexivity|].
      eexists [_; _], _. split; reflexivity.
    + observe. split; [reflexivity|]. split; [reflexivity|].
      eexists [_], _. split; [reflexivity|]. cbn [returned]. now rewrite E1.
  - observe. split; [reflexivity|]. split; [reflexivity|].
    eexists [], _. split; [reflexivity|]. cbn [returned]. now rewrite E0.
Qed.

(** X6 at the stub library: a [model_config] with a key [horizon] and
    no key [metrics]. *)
Lemma MTNet_build_witness :
  let s :=
    mk_state
      [mk_instance MTNetForecaster
         [("check_optional_config", VBool false); ("mc", VBool true);
          ("model_config", VObj 0); ("model_", VInt 9)]]
      [ODict [("horizon", VInt 5)]] [] in
  let out := MTNetForecaster__build stub_library 0 s in
  let evs := events_of (MTNetForecaster__build stub_library 0) s in
  map kwargs_of (news "MTNetKerasModel" evs)
  = [[("check_optional_config", VBool false); ("future_seq_len", VInt 5)]]
  /\ map kwargs_of (calls "MTNetKerasModel" "_get_attributes" evs)
     = [[("mc", VBool true); ("metrics", VNone); ("epochs", VInt 1);
         ("config", VObj 0)]]
  /\ exists pre e, evs = pre ++ [e] /\ snd out = returned stub_library e.
Proof.
  apply (MTNet_build_tolerates_missing_keys stub_library
           [mk_instance MTNetForecaster
              [("check_optional_config", VBool false); ("mc", VBool true);
               ("model_config", VObj 0); ("model_", VInt 9)]]
           [ODict [("horizon", VInt 5)]] [] 0
           (mk_instance MTNetForecaster
              [("check_optional_config", VBool false); ("mc", VBool true);
               ("model_config", VObj 0); ("model_", VInt 9)])
           (VBool false) (VBool true) 0 [("horizon", VInt 5)]); reflexivity.
Defined.

(** X7.  [MTNetForecaster._build] rebinds [internal] to a new
    [MTNetKerasModel] instance, at a location that was not in use, and
    changes nothing else: every other attribute of the forecaster, its
    class, and every other instance stay as they were, whether the library
    calls return or raise.  In particular [model_] is not updated by
    [_build].  When the instantiation raises, [internal] is not rebound
    either: the instances and the heap are as they were. *)
Theorem MTNet_build_rebinds_internal_only :
  forall (L : library) (Is : list instance) (h : list pyobj) (t : list event)
         (self : loc) (i : instance) (coc u : pyval) (lc : loc) (cfg : dict),
    Is !! self = Some i ->
    dict_get "check_optional_config" (i_dict i) = Some coc ->
    dict_get "mc" (i_dict i) = Some u ->
    dict_get "model_config" (i_dict i) = Some (VObj lc) ->
    h !! lc = Some (ODict cfg) ->
    let s' := fst (MTNetForecaster__build L self (mk_state Is h t)) in
    let new :=
      ENew "MTNetKerasModel"
        [("check_optional_config", coc);
         ("future_seq_len", default VNone (dict_get "horizon" cfg))] h in
    h !! length h = None
    /\ match returned L new with
       | Ok _ =>
           (exists i' a,
              insts s' !! self = Some i'
              /\ i_class i' = i_class i
              /\ dict_get "internal" (i_dict i') = Some (VObj (length h))
              /\ heap s' !! length h = Some (OInst "MTNetKerasModel" a)
              /\ forall name,
                   name <> "internal" ->
                   dict_get name (i_dict i') = dict_get name (i_dict i))
           /\ forall other, other <> self -> insts s' !! other = Is !! other
       | Raise _ => insts s' = Is /\ heap s' = h
       end.
Proof.
  intros L Is h t self i coc u lc cfg Hi Hcoc Hu Hcfg Hlc.
  cbv zeta.
  rewrite (MTNet_build_run L Is h t self i coc u lc cfg) by assumption.
  cbv zeta. cbn [returned writes_of heap].
  assert (Hlt : self < length Is) by (now apply lookup_lt_Some in Hi).
  split; [now apply lookup_ge_None_2|].
  destruct (lib_new L _ _ _) as [ia|x]; [|split; reflexivity].
  match goal with
  | |- context [apply_writes ?ws ?h1] =>
      destruct (apply_writes_inst ws h1 (length h) "MTNetKerasModel" _
                  (lookup_snoc _ _)) as [a2 Hi2]
  end.
  destruct (r_out _) as [v|e].
  - rewrite run_invoke_lib. cbn [fst insts heap].
    match goal with
    | |- context [apply_writes ?ws2 (apply_writes _ _)] =>
        destruct (apply_writes_inst ws2 _ _ _ _ Hi2) as [a3 Hi3]
    end.
    split.
    + do 2 eexists. split; [now apply list_lookup_insert_eq|].
      split; [reflexivity|]. cbn [i_dict].
      split; [apply dict_get_set_same|]. split; [exact Hi3|].
      intros name Hn. now apply dict_get_set_other.
    + intros other Ho. now apply list_lookup_insert_ne.
  - cbn [fst insts heap]. split.
    + do 2 eexists. split; [now apply list_lookup_insert_eq|].
      split; [reflexivity|]. cbn [i_dict].
      split; [apply dict_get_set_same|]. split; [exact Hi2|].
      intros name Hn. now apply dict_get_set_other.
    + intros other Ho. now apply list_lookup_insert_ne.
Qed.

(** X7 at the stub library. *)
Lemma MTNet_build_rebinds_witness :
  let Is :=
    [mk_instance MTNetForecaster
       [("check_optional_config", VBool false); ("mc", VBool true);
        ("model_config", VObj 0); ("internal", VObj 7);
        ("model_", VInt 9)]] in
  let h := [ODict [("metrics", VNone)]] in
  let s' := fst (MTNetForecaster__build stub_library 0 (mk_state Is h [])) in
  h !! length h = None
  /\ (exists i' a,
        insts s' !! 0 = Some i'
        /\ i_class i' = MTNetForecaster
        /\ dict_get "internal" (i_dict i') = Some (VObj (length h))
        /\ heap s' !! length h = Some (OInst "MTNetKerasModel" a)
        /\ forall name,
             name <> "internal" ->
             dict_get name (i_dict i')
             = dict_get name
                 [("check_optional_config", VBool false); ("mc", VBool true);
                  ("model_config", VObj 0); ("internal", VObj 7);
                  ("model_", VInt 9)])
  /\ forall other, other <> 0 -> insts s' !! other = Is !! other.
Proof.
  apply (MTNet_build_rebinds_internal_only stub_library
           [mk_instance MTNetForecaster
              [("check_optional_config", VBool false); ("mc", VBool true);
               ("model_config", VObj 0); ("internal", VObj 7);
               ("model_", VInt 9)]]
           [ODict [("metrics", VNone)]] [] 0
           (mk_instance MTNetForecaster
              [("check_optional_config", VBool false); ("mc", VBool true);
               ("model_config", VObj 0); ("internal", VObj 7);
               ("model_", VInt 9)])
           (VBool false) (VBool true) 0 [("metrics", VNone)]); reflexivity.
Defined.

(** X8.  When [internal] refers to an [MTNetKerasModel] instance,
    [preprocess_input(x)] is one call of [_gen_hist_inputs(x)] on that
    instance: it returns or raises what the call does, the only writes are
    those of the call, no instance of the module changes, and [internal]
    still refers to the same model afterwards. *)
Theorem preprocess_input_is_the_library_call :
  forall (L : library) (s : state) (self l : loc) (x : pyval),
    internal_at s self l ->
    let out := MTNetForecaster_preprocess_input L self x s in
    let call :=
      ECall "MTNetKerasModel" "_gen_hist_inputs" l [x] [] (heap s) in
    snd out = returned L call
    /\ events_of (MTNetForecaster_preprocess_input L self x) s = [call]
    /\ insts (fst out) = insts s
    /\ heap (fst out) = apply_writes (writes_of L call) (heap s)
    /\ internal_at (fst out) self l.
Proof.
  intros L [Is h t] self l x (i & a & Hi & Hint & Hl). cbv zeta.
  cbn [insts heap] in Hi, Hl. unfold events_of.
  unfold MTNetForecaster_preprocess_input.
  rewrite (bind_getattr_at _ _ _ _ _ _ _ _ Hi Hint).
  erewrite bind_get_method_lib by exact Hl.
  rewrite run_invoke_lib. cbn [fst snd insts heap trace returned writes_of].
  rewrite drop_app_length. repeat split.
  destruct (apply_writes_inst
              (r_writes
                 (lib_call L "MTNetKerasModel" "_gen_hist_inputs" l [x] [] h))
              _ _ _ _ Hl) as [a' Hl'].
  exists i, a'. cbn [insts heap]. auto.
Qed.

(** X8 at the stub library, after a construction with the defaults. *)
Lemma preprocess_input_witness :
  let out :=
    MTNetForecaster_preprocess_input stub_library 0 (VInt 7)
      stub_MTNet_state in
  let call :=
    ECall "MTNetKerasModel" "_gen_hist_inputs" 2 [VInt 7] []
      (heap stub_MTNet_state) in
  snd out = returned stub_library call
  /\ events_of
       (MTNetForecaster_preprocess_input stub_library 0 (VInt 7))
       stub_MTNet_state = [call]
  /\ insts (fst out) = insts stub_MTNet_state
  /\ heap (fst out)
     = apply_writes (writes_of stub_library call) (heap stub_MTNet_state)
  /\ internal_at (fst out) 0 2.
Proof.
  apply (preprocess_input_is_the_library_call stub_library stub_MTNet_state
           0 2 (VInt 7)).
  do 2 eexists. split; [vm_compute; reflexivity|].
  split; vm_compute; reflexivity.
Defined.

(** ** Internal models are not shared *)

(** X9.  A new [MTNetForecaster] never shares its internal model: after a
    successful construction in which the base initializer left [internal]
    as it found it, [internal] of the new forecaster refers to an
    [MTNetKerasModel] instance that was not in the heap before, so to a
    different object than the internal model of every forecaster that
    existed; and each of those still refers to its own internal model. *)
Theorem internal_models_are_never_shared :
  forall (L : library) (s : state) (a : MTNet.args) (s' : state) (self : loc),
    construct L MTNetForecaster (MTNetArgs a) s = (s', Ok self) ->
    base_init_leaves L "internal"
      (events_of (construct L MTNetForecaster (MTNetArgs a)) s) ->
    exists l,
      internal_at s' self l
      /\ heap s !! l = None
      /\ forall other l',
           internal_at s other l' ->
           other <> self /\ l' <> l /\ internal_at s' other l'.
Proof.
  intros L [Is H T] a s' self. unfold base_init_leaves.
  run_construct. outcome_cases; try discriminate.
  intros E. injection E as <- <-. observe.
  intros Hleave. apply Forall_inv in Hleave.
  cbn [attrs_before attrs_after dict_get String.eqb Ascii.eqb Bool.eqb]
    in Hleave.
  exists (length H + 2). unfold internal_at. cbn [insts heap].
  match goal with
  | |- context [apply_writes ?w3 (apply_writes ?w2 (apply_writes ?w1 ?h1))] =>
      set (ws1 := w1); set (ws2 := w2); set (ws3 := w3); set (hp := h1);
      assert (Hkeep : forall l c b,
                hp !! l = Some (OInst c b) ->
                exists b',
                  apply_writes ws3 (apply_writes ws2 (apply_writes ws1 hp))
                    !! l = Some (OInst c b'))
  end.
  { intros l c b Hl.
    destruct (apply_writes_inst ws1 _ _ _ _ Hl) as [b1 H1].
    destruct (apply_writes_inst ws2 _ _ _ _ H1) as [b2 H2].
    exact (apply_writes_inst ws3 _ _ _ _ H2). }
  split; [|split].
  - destruct (Hkeep (length H + 2) "MTNetKerasModel" _ (lookup_app_add H _ 2))
      as [b' Hb'].
    do 2 eexists. split; [apply lookup_snoc|]. cbn [i_dict].
    split; [exact Hleave | exact Hb'].
  - apply lookup_ge_None_2. lia.
  - intros other l' (i & b & Hi & Hint & Hl).
    split; [apply lookup_lt_Some in Hi; lia|].
    split; [apply lookup_lt_Some in Hl; lia|].
    destruct (Hkeep l' "MTNetKerasModel" b) as [b' Hb'];
      [subst hp; now apply lookup_app_l_Some|].
    exists i, b'. split; [now apply lookup_app_l_Some|]. split; assumption.
Qed.

(** X9 at the stub library: a second [MTNetForecaster] constructed after
    a first one.  The first has its internal model at location 2. *)
Lemma internal_models_witness :
  exists l,
    internal_at stub_two_MTNet_state 1 l
    /\ heap stub_MTNet_state !! l = None
    /\ (0 <> 1 /\ 2 <> l /\ internal_at stub_two_MTNet_state 0 2).
Proof.
  destruct (internal_models_are_never_shared stub_library stub_MTNet_state
              MTNet.defaults stub_two_MTNet_state 1)
    as (l & Hnew & Hfresh & Hold).
  - vm_compute. reflexivity.
  - unfold base_init_leaves. vm_compute. repeat constructor.
  - exists l. split; [exact Hnew|]. split; [exact Hfresh|].
    apply Hold. do 2 eexists. split; [vm_compute; reflexivity|].
    split; vm_compute; reflexivity.
Defined.

(** ** The internal model stays in place *)

Lemma preprocess_input_shape L s self x :
  exists ws,
    insts (fst (MTNetForecaster_preprocess_input L self x s)) = insts s
    /\ heap (fst (MTNetForecaster_preprocess_input L self x s))
       = apply_writes ws (heap s).
Proof.
  destruct s as [Is h t].
  unfold MTNetForecaster_preprocess_input, bind, getattr, get_method.
  cbn [insts heap].
  destruct (Is !! self) as [i|]; [|exists []; split; reflexivity].
  destruct (dict_get "internal" (i_dict i)) as [[| | | | |l|l]|];
    try (exists []; split; reflexivity).
  cbn [heap].
  destruct (h !! l) as [[d|xs|c a]|];
    try (exists []; split; reflexivity).
  rewrite run_invoke_lib. eexists. split; reflexivity.
Qed.

(** X10.  Once [internal] of a forecaster refers to an [MTNetKerasModel]
    instance, it keeps doing so when other forecasters are constructed and
    when [preprocess_input] is called on any instance. *)
Theorem internal_model_stays_in_place :
  forall (L : library) (s : state) (self l : loc),
    internal_at s self l ->
    (forall (k : klass) (args : ctor_args),
       internal_at (fst (construct L k args s)) self l)
    /\ (forall (self2 : loc) (x : pyval),
       internal_at (fst (MTNetForecaster_preprocess_input L self2 x s))
         self l).
Proof.
  intros L s self l (i & a & Hi & Hint & Hl). split.
  - intros k args. destruct s as [Is h t]. cbn [insts heap] in Hi, Hl.
    destruct (construct_shape L Is h t k args) as (new & fresh & Hn & Hh & _).
    destruct (apply_writes_inst
                (library_writes L
                   (events_of (construct L k args) (mk_state Is h t)))
                (h ++ fresh) l "MTNetKerasModel" a
                (lookup_app_l_Some _ _ _ _ Hl)) as [a' Hl'].
    exists i, a'. rewrite Hn, Hh.
    split; [now apply lookup_app_l_Some|]. split; assumption.
  - intros self2 x.
    destruct (preprocess_input_shape L s self2 x) as (ws & Hn & Hh).
    destruct (apply_writes_inst ws _ _ _ _ Hl) as [a' Hl'].
    exists i, a'. rewrite Hn, Hh. auto.
Qed.

(** X10 at the stub library, after a construction with the defaults. *)
Lemma internal_model_stays_witness :
  (forall (k : klass) (args : ctor_args),
     internal_at (fst (construct stub_library k args stub_MTNet_state)) 0 2)
  /\ (forall (self2 : loc) (x : pyval),
     internal_at
       (fst (MTNetForecaster_preprocess_input stub_library self2 x
               stub_MTNet_state)) 0 2).
Proof.
  apply (internal_model_stays_in_place stub_library stub_MTNet_state 0 2).
  do 2 eexists. split; [vm_compute; reflexivity|].
  split; vm_compute; reflexivity.
Defined.
